(** * A shallow embedding of [app/parse.py]

    The scraper drives a Selenium browser session over a catalogue site,
    parses product cards with BeautifulSoup and writes one CSV table per
    catalogue section.  The embedding keeps the control flow of every
    function of the module; the browser, the site and the Python built-ins
    the module calls are modelled by what the module can observe of them. *)

From Stdlib Require Import Bool Arith ZArith List String Ascii Lia.
Import ListNotations.
Open Scope string_scope.
Open Scope list_scope.

Set Implicit Arguments.

(** ** Python values used by the module *)

(** The exceptions that can travel through the module: the three it
    imports from [selenium.common.exceptions], the one [WebDriverWait.until]
    raises when its condition does not hold within the timeout, and the
    built-in ones raised by subscripting, attribute access and conversions. *)
Inductive exn : Type :=
| NoSuchElementException
| ElementClickInterceptedException
| ElementNotInteractableException
| TimeoutException
| StaleElementReferenceException
| InvalidSessionIdException
| AttributeError
| TypeError
| KeyError
| IndexError
| ValueError.

Definition exn_eq_dec (a b : exn) : {a = b} + {a <> b}.
Proof. decide equality. Defined.

(** A [dict] with string keys keeps the order in which keys were first
    inserted; assigning to a key that is present replaces its value in
    place. *)
Definition dict (V : Type) : Type := list (string * V).

Fixpoint dict_set {V : Type} (k : string) (v : V) (d : dict V) : dict V :=
  match d with
  | [] => [(k, v)]
  | (k', v') :: d' =>
      if String.eqb k' k then (k, v) :: d' else (k', v') :: dict_set k v d'
  end.

Fixpoint dict_get {V : Type} (k : string) (d : dict V) : option V :=
  match d with
  | [] => None
  | (k', v') :: d' => if String.eqb k' k then Some v' else dict_get k d'
  end.

Definition keys {V : Type} (d : dict V) : list string := map fst d.

(** *** [str.split()], [str.replace("$", "")] and [int(str)] on ASCII text *)

(** [str.isspace] on one ASCII character: tab, line feed, vertical tab,
    form feed, carriage return, the four separators 28..31 and the blank. *)
Definition is_space (c : ascii) : bool :=
  let n := nat_of_ascii c in
  ((9 <=? n)%nat && (n <=? 13)%nat) || ((28 <=? n)%nat && (n <=? 32)%nat).

Definition snoc (s : string) (c : ascii) : string := (s ++ String c "")%string.

(** [split_from tok s]: the tokens of [s] when [tok] is the token being
    read ([None] between tokens). *)
Fixpoint split_from (tok : option string) (s : string) : list string :=
  match s with
  | EmptyString => match tok with Some t => [t] | None => [] end
  | String c s' =>
      if is_space c then
        match tok with
        | Some t => t :: split_from None s'
        | None => split_from None s'
        end
      else
        split_from (Some (snoc (match tok with Some t => t | None => "" end) c)) s'
  end.

(** [s.split()]: the maximal runs of non-blank characters, in order. *)
Definition split (s : string) : list string := split_from None s.

(** [s.replace("$", "")] *)
Fixpoint replace_dollar (s : string) : string :=
  match s with
  | EmptyString => EmptyString
  | String c s' =>
      if Ascii.eqb c "$" then replace_dollar s' else String c (replace_dollar s')
  end.

Fixpoint lstrip (s : string) : string :=
  match s with
  | String c s' => if is_space c then lstrip s' else s
  | EmptyString => EmptyString
  end.

Fixpoint rstrip (s : string) : string :=
  match s with
  | EmptyString => EmptyString
  | String c s' =>
      match rstrip s' with
      | EmptyString => if is_space c then EmptyString else String c EmptyString
      | r => String c r
      end
  end.

Definition strip (s : string) : string := rstrip (lstrip s).

Definition digit_val (c : ascii) : option Z :=
  let n := nat_of_ascii c in
  if ((48 <=? n)%nat && (n <=? 57)%nat)%bool then Some (Z.of_nat (n - 48)) else None.

(** Decimal digits, where one underscore may stand between two digits. *)
Fixpoint int_digits (acc : Z) (after_digit : bool) (s : string) : option Z :=
  match s with
  | EmptyString => if after_digit then Some acc else None
  | String c s' =>
      match digit_val c with
      | Some d => int_digits (10 * acc + d) true s'
      | None =>
          if (Ascii.eqb c "_" && after_digit)%bool then int_digits acc false s'
          else None
      end
  end.

(** [int(s)] for a string: blanks around the number are ignored, a sign
    may precede the digits; [None] stands for [ValueError]. *)
Definition int (s : string) : option Z :=
  match strip s with
  | String "+" r => int_digits 0 false r
  | String "-" r => option_map Z.opp (int_digits 0 false r)
  | t => int_digits 0 false t
  end.

(** ** The pages the browser renders *)

(** The [.title] element of a card: its [href] and [title] attributes. *)
Record TitleElem : Type := {
  href : option string;
  title_attr : option string
}.

(** A product card ([.thumbnail] subtree) as BeautifulSoup sees it: what
    each selector the module applies to it finds. *)
Record Card : Type := {
  title_elem : option TitleElem;       (* select_one(".title") *)
  description_elem : option string;    (* select_one(".description").text *)
  price_elem : option string;          (* select_one(".price").text *)
  rating_elem : option string;         (* select_one("p[data-rating]")["data-rating"] *)
  reviews_elem : option string         (* select_one(".ratings > p.pull-right").text *)
}.

(** A variant button of the [swatches] block.  [btn_price] is the text the
    page's price element shows once the button has been activated ([None]:
    the page then shows no price element). *)
Record Button : Type := {
  btn_value : string;
  btn_text : string;
  btn_disabled : bool;
  btn_price : option string
}.

(** The cookie banner.  A displayed banner lies over the page and takes
    the clicks meant for the elements below it.  A script click on its
    button closes it once [sticky] earlier script clicks have been
    ignored. *)
Record Banner : Type := {
  displayed : bool;
  has_button : bool;
  sticky : nat
}.

(** A rendered page.  [reveal] holds the batches of cards that clicks on
    the [btn-more] control will append, one batch per click; the control is
    in the page as long as a batch is left.  [pagination] holds the texts
    of the [li] items of the [.pagination] element, when the page has one.
    [overlay] tells that some element other than the cookie banner lies
    over the controls of the page and takes the clicks meant for them;
    nothing the module does removes it. *)
Record Page : Type := {
  thumbnails : list Card;
  reveal : list (list Card);
  banner : option Banner;
  swatches : option (list Button);
  price_text : option string;
  pagination : option (list string);
  overlay : bool
}.

Definition blank_page : Page :=
  {| thumbnails := []; reveal := []; banner := None;
     swatches := None; price_text := None; pagination := None;
     overlay := false |}.

(** The locators the module uses. *)
Inductive By : Type :=
| ID_cookieBanner
| TAG_NAME_button
| CLASS_NAME_swatches
| CLASS_NAME_price
| CLASS_NAME_btn_more.

Inductive WebElement : Type :=
| ElBanner
| ElBannerButton
| ElSwatches
| ElSwatch (b : Button)
| ElPrice
| ElBtnMore.

(** The conditions of [expected_conditions] the module waits for, both on
    the element with id [cookieBanner]. *)
Inductive Cond : Type :=
| presence_of_element_located
| element_to_be_clickable.

(** What the module does to the outside world, most recent first. *)
Inductive Event : Type :=
| EvGet (url : string)
| EvWait (timeout : nat) (c : Cond)
| EvClick (el : WebElement)
| EvScriptClick (el : WebElement)
| EvSleep (seconds : nat).

Inductive Line : Type :=
| Text (s : string)
| TextExn (s : string) (e : exn).

Definition ref : Type := nat.

(** A browser session: the page it currently shows, and whether it has
    been quit. *)
Record Browser : Type := {
  current : Page;
  closed : bool
}.

(** *** What the driver finds in a page *)

(** [locate p scope loc]: the elements [loc] selects in the whole page
    ([scope = None]) or below the element [scope], for the combinations the
    module asks for. *)
Definition locate (p : Page) (scope : option WebElement) (loc : By)
  : list WebElement :=
  match scope, loc with
  | None, ID_cookieBanner =>
      match banner p with Some _ => [ElBanner] | None => [] end
  | Some ElBanner, TAG_NAME_button =>
      match banner p with
      | Some bn => if has_button bn then [ElBannerButton] else []
      | None => []
      end
  | None, CLASS_NAME_swatches =>
      match swatches p with Some _ => [ElSwatches] | None => [] end
  | Some ElSwatches, TAG_NAME_button =>
      match swatches p with Some bs => map ElSwatch bs | None => [] end
  | None, CLASS_NAME_price =>
      match price_text p with Some _ => [ElPrice] | None => [] end
  | None, CLASS_NAME_btn_more =>
      match reveal p with [] => [] | _ :: _ => [ElBtnMore] end
  | _, _ => []
  end.

(** A click aimed at a control of the page is taken by whatever lies over
    it: the displayed banner or another covering element. *)
Definition obstructed (p : Page) : bool :=
  overlay p
  || match banner p with Some bn => displayed bn | None => false end.

Definition set_banner (bn : option Banner) (p : Page) : Page :=
  {| thumbnails := thumbnails p; reveal := reveal p; banner := bn;
     swatches := swatches p; price_text := price_text p;
     pagination := pagination p; overlay := overlay p |}.

Definition set_price_text (t : option string) (p : Page) : Page :=
  {| thumbnails := thumbnails p; reveal := reveal p; banner := banner p;
     swatches := swatches p; price_text := t;
     pagination := pagination p; overlay := overlay p |}.

Definition reveal_more (p : Page) : Page :=
  match reveal p with
  | [] => p
  | batch :: rest =>
      {| thumbnails := thumbnails p ++ batch; reveal := rest;
         banner := banner p; swatches := swatches p;
         price_text := price_text p; pagination := pagination p;
         overlay := overlay p |}
  end.

(** What a click that reaches the element does to the page. *)
Definition activate (el : WebElement) (p : Page) : Page :=
  match el with
  | ElBannerButton =>
      match banner p with
      | Some bn =>
          match sticky bn with
          | O => set_banner None p
          | S n =>
              set_banner (Some {| displayed := displayed bn;
                                  has_button := has_button bn;
                                  sticky := n |}) p
          end
      | None => p
      end
  | ElSwatch b => if btn_disabled b then p else set_price_text (btn_price b) p
  | ElBtnMore => reveal_more p
  | ElBanner | ElSwatches | ElPrice => p
  end.

(** The controls of the page proper lie below whatever covers the page;
    the banner and its button do not. *)
Definition under_banner (el : WebElement) : bool :=
  match el with
  | ElBanner | ElBannerButton => false
  | _ => true
  end.

(** [condition_holds c p]: the condition is met by the page within the
    timeout of the wait. *)
Definition condition_holds (c : Cond) (p : Page) : bool :=
  match c, banner p with
  | presence_of_element_located, Some _ => true
  | element_to_be_clickable, Some bn => displayed bn
  | _, None => false
  end.

Fixpoint set_nth {A : Type} (n : nat) (x : A) (l : list A) : list A :=
  match n, l with
  | _, [] => []
  | O, _ :: l' => x :: l'
  | S n', y :: l' => y :: set_nth n' x l'
  end.

(** ** Sample pages *)

(** Cards, pages and sites to run the module on, with an instance of the
    built-ins it is given: prices are amounts with at most two decimals,
    held in cents, and [urljoin] is taken for a base that is the root of a
    site and an address that is a path on it. *)
Module Run.

Fixpoint cents_frac (acc : Z) (places : nat) (s : string) : option Z :=
  match s with
  | EmptyString => Some (acc * 10 ^ Z.of_nat places)%Z
  | String c s' =>
      match places, digit_val c with
      | S places', Some d => cents_frac (10 * acc + d) places' s'
      | _, _ => None
      end
  end.

Fixpoint cents_int (acc : Z) (after_digit : bool) (s : string) : option Z :=
  match s with
  | EmptyString => if after_digit then Some (100 * acc)%Z else None
  | String c s' =>
      if Ascii.eqb c "." then
        if after_digit then cents_frac acc 2 s' else None
      else
        match digit_val c with
        | Some d => cents_int (10 * acc + d) true s'
        | None => None
        end
  end.

Definition cents (s : string) : option Z := cents_int 0 false (strip s).

Definition join (base address : string) : string :=
  match address with
  | String "/" path => (base ++ path)%string
  | _ => (base ++ address)%string
  end.

(** A card without a link, and one without link and review count. *)
Definition card_a : Card :=
  {| title_elem := Some {| href := None; title_attr := Some "Asus VivoBook" |};
     description_elem := Some "15.6 inch, 4GB, 500GB";
     price_elem := Some "$295.99";
     rating_elem := Some "3";
     reviews_elem := Some "14 reviews" |}.

Definition card_b : Card :=
  {| title_elem := Some {| href := None; title_attr := Some "Lenovo V110" |};
     description_elem := Some "15.6 inch, 4GB, 128GB SSD";
     price_elem := Some "$321.94";
     rating_elem := Some "5";
     reviews_elem := None |}.

(** A card that links to a detail page. *)
Definition card_linked : Card :=
  {| title_elem := Some {| href := Some "/test-sites/e-commerce/static/product/31";
                           title_attr := Some "Acer Aspire" |};
     description_elem := Some "15.6 inch, 8GB, 1TB";
     price_elem := Some "$469.10";
     rating_elem := Some "4";
     reviews_elem := Some "2 reviews" |}.

Definition detail_url : string :=
  "https://webscraper.io/test-sites/e-commerce/static/product/31".

(** A card without title element: reading it raises [TypeError]. *)
Definition card_broken : Card :=
  {| title_elem := None; description_elem := None; price_elem := None;
     rating_elem := None; reviews_elem := None |}.

Definition hdd (value : string) (is_disabled : bool) (shown : string) : Button :=
  {| btn_value := value; btn_text := ("HDD " ++ value)%string;
     btn_disabled := is_disabled; btn_price := Some shown |}.

Definition closable : Banner :=
  {| displayed := true; has_button := true; sticky := 0 |}.

Definition detail_page (bn : option Banner) (bs : option (list Button)) : Page :=
  {| thumbnails := []; reveal := []; banner := bn; swatches := bs;
     price_text := Some "$469.10"; pagination := None;
     overlay := false |}.

(** The same detail page with another element than the banner lying over
    its buttons. *)
Definition overlaid (bn : option Banner) (bs : option (list Button)) : Page :=
  {| thumbnails := []; reveal := []; banner := bn; swatches := bs;
     price_text := Some "$469.10"; pagination := None;
     overlay := true |}.

(** A site that serves [page] at [url] and blank pages elsewhere. *)
Definition serving (url : string) (page : Page) : string -> Page :=
  fun address => if String.eqb address url then page else blank_page.

(** A listing with one card and a reveal control that appends one more. *)
Definition listing : Page :=
  {| thumbnails := [card_a]; reveal := [[card_b]]; banner := None;
     swatches := None; price_text := None; pagination := None;
     overlay := false |}.

(** A site on which the section [laptops] shows a card that cannot be
    read, and every other address a page without cards. *)
Definition laptops_url : string :=
  "https://webscraper.io/test-sites/e-commerce/static/computers/laptops".

Definition broken_listing : Page :=
  {| thumbnails := [card_broken]; reveal := []; banner := None;
     swatches := None; price_text := None; pagination := None;
     overlay := false |}.

(** A detail page whose variant block has only a disabled button. *)
Definition all_disabled : Page :=
  detail_page (Some closable) (Some [hdd "128" true "$469.10"]).

(** A detail page with one disabled and two enabled buttons. *)
Definition three_buttons : list Button :=
  [hdd "128" true "$469.10"; hdd "256" false "$489.10";
   hdd "512" false "$509.10"].

(** A banner without button: the dismisser cannot close it. *)
Definition stuck : Banner :=
  {| displayed := true; has_button := false; sticky := 0 |}.

(** A banner that ignores the first script click and closes on the second. *)
Definition stubborn : Banner :=
  {| displayed := true; has_button := true; sticky := 1 |}.

(** A page with a pager of three pages. *)
Definition paged : Page :=
  {| thumbnails := [card_a]; reveal := []; banner := None; swatches := None;
     price_text := None;
     pagination := Some ["<"; "1"; "2"; "3"; ">"]; overlay := false |}.

(** The listing with one card and a reveal control, under a banner. *)
Definition covered_listing : Page :=
  {| thumbnails := [card_a]; reveal := [[card_b]]; banner := Some stuck;
     swatches := None; price_text := None; pagination := None;
     overlay := false |}.

(** A listing whose card carries a link, with a reveal control. *)
Definition linked_listing : Page :=
  {| thumbnails := [card_linked]; reveal := [[card_b]]; banner := None;
     swatches := None; price_text := None; pagination := None;
     overlay := false |}.

(** A listing whose second card cannot be read. *)
Definition half_broken : Page :=
  {| thumbnails := [card_a; card_broken; card_b]; reveal := [];
     banner := None; swatches := None; price_text := None;
     pagination := None;
     overlay := false |}.

Definition listing_url : string :=
  "https://webscraper.io/test-sites/e-commerce/more/".

(** A site that serves a listing and the detail page of its card. *)
Definition shop (lst detail : Page) : string -> Page :=
  fun address =>
    if String.eqb address listing_url then lst
    else if String.eqb address detail_url then detail
    else blank_page.

(** Buttons of which the second shows a text that is no price. *)
Definition odd_buttons : list Button :=
  [hdd "128" true "$469.10"; hdd "256" false "ask"; hdd "512" false "$509.10"].

End Run.

(** ** The module, over the built-ins it imports *)

Section Parse.

(** Python's [float] values, the conversion [float(str)] ([None] stands for
    [ValueError]) and [urllib.parse.urljoin]. *)
Variable F : Type.
Variable float : string -> option F.
Variable urljoin : string -> string -> string.

Definition BASE_URL : string := "https://webscraper.io/".

Definition PRODUCT_PAGES : dict string := [
  ("home", urljoin BASE_URL "test-sites/e-commerce/more/");
  ("computers", urljoin BASE_URL "test-sites/e-commerce/static/computers/");
  ("laptops", urljoin BASE_URL "test-sites/e-commerce/static/computers/laptops");
  ("tablets", urljoin BASE_URL "test-sites/e-commerce/static/computers/tablets");
  ("phones", urljoin BASE_URL "test-sites/e-commerce/static/phones");
  ("touch", urljoin BASE_URL "test-sites/e-commerce/static/phones/touch")
].

Record Product : Type := {
  title : string;
  description : string;
  price : F;
  rating : Z;
  num_of_reviews : Z;
  additional_info : dict (dict F)
}.

(** [[field.name for field in fields(Product)]] *)
Definition PRODUCT_FIELDS : list string :=
  ["title"; "description"; "price"; "rating"; "num_of_reviews";
   "additional_info"].

(** A value handed to the CSV writer, and a table as the rows handed to it. *)
Inductive Cell : Type :=
| CStr (s : string)
| CFloat (f : F)
| CInt (z : Z)
| CDict (d : dict (dict F)).

Definition Row : Type := list Cell.
Definition Table : Type := list Row.

(** [astuple(product)] *)
Definition astuple (p : Product) : Row :=
  [CStr (title p); CStr (description p); CFloat (price p); CInt (rating p);
   CInt (num_of_reviews p); CDict (additional_info p)].

(** *** The state of the process and of its surroundings *)

Record World : Type := {
  _driver : option ref;          (* the module-level global *)
  heap : list Browser;           (* the WebDriver objects created so far *)
  web : string -> Page;          (* what each address serves when loaded *)
  log : list Event;              (* most recent first *)
  stdout : list Line;            (* most recent first *)
  files : dict Table
}.

Definition set__driver (d : option ref) (w : World) : World :=
  {| _driver := d; heap := heap w; web := web w; log := log w;
     stdout := stdout w; files := files w |}.

Definition set_heap (h : list Browser) (w : World) : World :=
  {| _driver := _driver w; heap := h; web := web w; log := log w;
     stdout := stdout w; files := files w |}.

Definition emit (e : Event) (w : World) : World :=
  {| _driver := _driver w; heap := heap w; web := web w; log := e :: log w;
     stdout := stdout w; files := files w |}.

Definition set_stdout (o : list Line) (w : World) : World :=
  {| _driver := _driver w; heap := heap w; web := web w; log := log w;
     stdout := o; files := files w |}.

Definition set_files (f : dict Table) (w : World) : World :=
  {| _driver := _driver w; heap := heap w; web := web w; log := log w;
     stdout := stdout w; files := f |}.

(** A run returns a value, raises, or is still running when the fuel given
    to its [while True] loops is used up. *)
Inductive outcome (A : Type) : Type :=
| Ret (a : A)
| Exc (e : exn)
| Diverge.
Arguments Exc {A} e.
Arguments Diverge {A}.

Definition M (A : Type) : Type := World -> outcome A * World.

Definition ret {A : Type} (a : A) : M A := fun w => (Ret a, w).

Definition raise {A : Type} (e : exn) : M A := fun w => (Exc e, w).

Definition bind {A B : Type} (m : M A) (k : A -> M B) : M B :=
  fun w =>
    match m w with
    | (Ret a, w') => k a w'
    | (Exc e, w') => (Exc e, w')
    | (Diverge, w') => (Diverge, w')
    end.

(** [try: body / except <classes>: handler]: an exception of another class
    passes through. *)
Definition try_except {A : Type} (body : M A) (classes : list exn)
    (handler : exn -> M A) : M A :=
  fun w =>
    match body w with
    | (Exc e, w') =>
        if existsb (fun c => if exn_eq_dec c e then true else false) classes
        then handler e w' else (Exc e, w')
    | r => r
    end.

Notation "x <- c1 ;; c2" := (bind c1 (fun x => c2))
  (at level 61, c1 at next level, right associativity).
Notation "c1 ;; c2" := (bind c1 (fun _ => c2))
  (at level 61, right associativity).

(** [int(s)] and [float(s)] as they run: a string that does not convert
    raises [ValueError]. *)
Definition int_ (s : string) : M Z :=
  match int s with Some z => ret z | None => raise ValueError end.

Definition float_ (s : string) : M F :=
  match float s with Some f => ret f | None => raise ValueError end.

(** *** The session handle *)

Definition get_driver : M (option ref) := fun w => (Ret (_driver w), w).

Definition set_driver (new_driver : ref) : M unit :=
  fun w => (Ret tt, set__driver (Some new_driver) w).

(** *** The WebDriver API, on a handle obtained from [get_driver] *)

(** The session behind a handle: a method called on [None] raises
    [AttributeError]; a session that has been quit answers no command. *)
Definition session (driver : option ref) : M Browser :=
  fun w =>
    match driver with
    | None => (Exc AttributeError, w)
    | Some r =>
        match nth_error (heap w) r with
        | Some b =>
            if closed b then (Exc InvalidSessionIdException, w) else (Ret b, w)
        | None => (Exc InvalidSessionIdException, w)
        end
    end.

Definition show (driver : option ref) (p : Page) : M unit :=
  fun w =>
    match driver with
    | Some r =>
        (Ret tt, set_heap (set_nth r {| current := p; closed := false |} (heap w)) w)
    | None => (Exc AttributeError, w)
    end.

Definition record (e : Event) : M unit := fun w => (Ret tt, emit e w).

(** [driver.get(url)] *)
Definition get (driver : option ref) (url : string) : M unit :=
  _ <- session driver ;;
  record (EvGet url) ;;
  fun w => show driver (web w url) w.

(** [driver.page_source], parsed: the page as rendered now. *)
Definition page_source (driver : option ref) : M Page :=
  b <- session driver ;;
  ret (current b).

(** [driver.find_elements(by, value)] *)
Definition find_elements (driver : option ref) (loc : By) : M (list WebElement) :=
  b <- session driver ;;
  ret (locate (current b) None loc).

(** [driver.find_element(by, value)] *)
Definition find_element (driver : option ref) (loc : By) : M WebElement :=
  found <- find_elements driver loc ;;
  match found with
  | el :: _ => ret el
  | [] => raise NoSuchElementException
  end.

(** [element.find_elements(by, value)] *)
Definition find_elements_in (driver : option ref) (element : WebElement)
    (loc : By) : M (list WebElement) :=
  b <- session driver ;;
  ret (locate (current b) (Some element) loc).

(** [element.find_element(by, value)] *)
Definition find_element_in (driver : option ref) (element : WebElement)
    (loc : By) : M WebElement :=
  found <- find_elements_in driver element loc ;;
  match found with
  | el :: _ => ret el
  | [] => raise NoSuchElementException
  end.

(** [element.click()]: the click is attempted, and taken by the banner
    when the banner lies over the element. *)
Definition click (driver : option ref) (element : WebElement) : M unit :=
  b <- session driver ;;
  record (EvClick element) ;;
  if under_banner element && obstructed (current b)
  then raise ElementClickInterceptedException
  else show driver (activate element (current b)).

(** [driver.execute_script("arguments[0].click();", element)]: the click
    reaches the element whatever lies over it. *)
Definition execute_script_click (driver : option ref) (element : WebElement)
  : M unit :=
  b <- session driver ;;
  record (EvScriptClick element) ;;
  show driver (activate element (current b)).

(** [WebDriverWait(driver, timeout).until(condition)]: the condition is
    polled; [NoSuchElementException] raised by a poll is swallowed, and
    when the condition has not held by the end of the timeout [until]
    raises [TimeoutException]. *)
Definition WebDriverWait_until (driver : option ref) (timeout : nat) (c : Cond)
  : M WebElement :=
  b <- session driver ;;
  record (EvWait timeout c) ;;
  if condition_holds c (current b) then ret ElBanner
  else raise TimeoutException.

(** [element.get_property("disabled")] *)
Definition get_property_disabled (element : WebElement) : M bool :=
  match element with
  | ElSwatch b => ret (btn_disabled b)
  | _ => ret false
  end.

(** [element.get_property("value")] *)
Definition get_property_value (element : WebElement) : M string :=
  match element with
  | ElSwatch b => ret (btn_value b)
  | _ => ret ""
  end.

(** [element.text] *)
Definition text (driver : option ref) (element : WebElement) : M string :=
  b <- session driver ;;
  match element with
  | ElPrice =>
      match price_text (current b) with
      | Some t => ret t
      | None => raise StaleElementReferenceException
      end
  | ElSwatch btn => ret (btn_text btn)
  | _ => ret ""
  end.

(** [time.sleep(seconds)] *)
Definition sleep (seconds : nat) : M unit := record (EvSleep seconds).

Definition print (s : string) : M unit :=
  fun w => (Ret tt, set_stdout (Text s :: stdout w) w).

Definition print_exn (s : string) (e : exn) : M unit :=
  fun w => (Ret tt, set_stdout (TextExn s e :: stdout w) w).

(** *** [close_cookie_banner] *)

Definition close_cookie_banner : M unit :=
  driver <- get_driver ;;
  try_except
    (WebDriverWait_until driver 10 presence_of_element_located ;;
     cookie_button <-
       (cookieBanner <- find_element driver ID_cookieBanner ;;
        find_element_in driver cookieBanner TAG_NAME_button) ;;
     WebDriverWait_until driver 10 element_to_be_clickable ;;
     execute_script_click driver cookie_button ;;
     print "Cookie banner closed successfully.")
    [NoSuchElementException; ElementNotInteractableException]
    (fun e => print_exn "Cookie banner not interactable or not present:" e).

(** *** [parse_hdd_block_prices] *)

(** The body of [for button in buttons], with the [prices] built so far.
    In the assignment [prices[value] = float(...)] the right-hand side runs
    before the key is read. *)
Definition visit_button (driver : option ref) (button : WebElement)
    (prices : dict F) : M (dict F) :=
  is_disabled <- get_property_disabled button ;;
  if negb is_disabled then
    try_except (click driver button)
      [ElementClickInterceptedException]
      (fun _ => close_cookie_banner ;; click driver button) ;;
    price_element <- find_element driver CLASS_NAME_price ;;
    price_str <- text driver price_element ;;
    price_value <- float_ (replace_dollar price_str) ;;
    value <- get_property_value button ;;
    ret (dict_set value price_value prices)
  else ret prices.

Fixpoint for_buttons (driver : option ref) (buttons : list WebElement)
    (prices : dict F) : M (dict F) :=
  match buttons with
  | [] => ret prices
  | button :: rest =>
      prices' <- visit_button driver button prices ;;
      for_buttons driver rest prices'
  end.

(** The address in [title_elem["href"]], when the card has a [.title]
    element that carries an [href]. *)
Definition detail_link (product_soup : Card) : option string :=
  match title_elem product_soup with
  | Some t => href t
  | None => None
  end.

Definition parse_hdd_block_prices (product_soup : Card) : M (dict F) :=
  match detail_link product_soup with
  | Some link =>
      let detailed_url := urljoin BASE_URL link in
      driver <- get_driver ;;
      get driver detailed_url ;;
      close_cookie_banner ;;
      swatches_elem <- find_element driver CLASS_NAME_swatches ;;
      buttons <- find_elements_in driver swatches_elem TAG_NAME_button ;;
      for_buttons driver buttons []
  | None => ret []
  end.

(** *** [parse_single_product] *)

(** [int(num_of_reviews_elem.text.split()[0]) if num_of_reviews_elem else 0] *)
Definition count_reviews (product_soup : Card) : M Z :=
  match reviews_elem product_soup with
  | Some elem_text =>
      match split elem_text with
      | token :: _ => int_ token
      | [] => raise IndexError
      end
  | None => ret 0%Z
  end.

Definition parse_single_product (product_soup : Card) : M Product :=
  hdd_prices <- parse_hdd_block_prices product_soup ;;
  reviews <- count_reviews product_soup ;;
  title_value <-
    match title_elem product_soup with
    | Some t =>
        match title_attr t with
        | Some s => ret s
        | None => raise KeyError
        end
    | None => raise TypeError
    end ;;
  description_value <-
    match description_elem product_soup with
    | Some s => ret s
    | None => raise AttributeError
    end ;;
  price_value <-
    match price_elem product_soup with
    | Some s => float_ (replace_dollar s)
    | None => raise AttributeError
    end ;;
  rating_value <-
    match rating_elem product_soup with
    | Some s => int_ s
    | None => raise TypeError
    end ;;
  ret {| title := title_value;
         description := description_value;
         price := price_value;
         rating := rating_value;
         num_of_reviews := reviews;
         additional_info := [("hdd_prices", hdd_prices)] |}.

(** *** [get_num_pages] *)

(** [l[-2]] *)
Definition last_but_one {A : Type} (l : list A) : option A :=
  match rev l with
  | _ :: x :: _ => Some x
  | _ => None
  end.

Definition get_num_pages (page_soup : Page) : M Z :=
  match pagination page_soup with
  | None => ret 1%Z
  | Some items =>
      match last_but_one items with
      | Some item_text => int_ item_text
      | None => raise IndexError
      end
  end.

(** *** [get_single_page_products] *)

(** [[parse_single_product(product_soup) for product_soup in products]] *)
Fixpoint parse_each (products : list Card) : M (list Product) :=
  match products with
  | [] => ret []
  | product_soup :: rest =>
      p <- parse_single_product product_soup ;;
      ps <- parse_each rest ;;
      ret (p :: ps)
  end.

Definition get_single_page_products (page_soup : Page) : M (list Product) :=
  parse_each (thumbnails page_soup).

(** *** [scrape_page] *)

(** The [while True] loop, with the [products] collected so far; [fuel]
    bounds the number of passes. *)
Fixpoint scrape_loop (fuel : nat) (driver : option ref)
    (products : list Product) : M (list Product) :=
  match fuel with
  | O => fun w => (Diverge, w)
  | S fuel' =>
      page_soup <- page_source driver ;;
      found <- get_single_page_products page_soup ;;
      let products := products ++ found in
      more_button <- find_elements driver CLASS_NAME_btn_more ;;
      match more_button with
      | first :: _ =>
          click driver first ;;
          sleep 2 ;;
          scrape_loop fuel' driver products
      | [] => ret products
      end
  end.

Definition scrape_page (fuel : nat) (url : string) (page_name : string)
  : M (list Product) :=
  driver <- get_driver ;;
  get driver url ;;
  sleep 2 ;;
  scrape_loop fuel driver [].

(** *** [write_products_to_csv] *)

(** [open(filename, "w", newline="")]: the file is created or emptied. *)
Definition open_w (filename : string) : M unit :=
  fun w => (Ret tt, set_files (dict_set filename [] (files w)) w).

(** [writer.writerow(row)] on the writer of [filename] *)
Definition writerow (filename : string) (row : Row) : M unit :=
  fun w =>
    match dict_get filename (files w) with
    | Some t => (Ret tt, set_files (dict_set filename (t ++ [row]) (files w)) w)
    | None => (Exc ValueError, w)
    end.

(** [writer.writerows(rows)] *)
Fixpoint writerows (filename : string) (rows : list Row) : M unit :=
  match rows with
  | [] => ret tt
  | row :: rest => writerow filename row ;; writerows filename rest
  end.

Definition write_products_to_csv (products : list Product)
    (filename : string) : M unit :=
  open_w filename ;;
  writerow filename (map CStr PRODUCT_FIELDS) ;;
  writerows filename (map astuple products).

(** *** [get_all_products] *)

Fixpoint for_pages (fuel : nat) (pages : dict string) : M unit :=
  match pages with
  | [] => ret tt
  | (page_name, url) :: rest =>
      products <- scrape_page fuel url page_name ;;
      write_products_to_csv products (page_name ++ ".csv")%string ;;
      for_pages fuel rest
  end.

Definition get_all_products (fuel : nat) : M unit :=
  for_pages fuel PRODUCT_PAGES.

(** *** [main] *)

(** [webdriver.Chrome()]: a new session, showing a blank page. *)
Definition Chrome : M ref :=
  fun w =>
    (Ret (List.length (heap w)),
     set_heap (heap w ++ [{| current := blank_page; closed := false |}]) w).



(** The process as it starts: no session installed, nothing printed or
    written. *)
Definition initial (the_web : string -> Page) : World :=
  {| _driver := None; heap := []; web := the_web; log := [];
     stdout := []; files := [] |}.

(** ** Notions used to state the properties *)

(** The process once [main] has created the session and installed it. *)
Definition started (the_web : string -> Page) : World :=
  snd ((new_driver <- Chrome ;; set_driver new_driver) (initial the_web)).

(** The header row of every table. *)
Definition header : Row := map CStr PRODUCT_FIELDS.

(** The record [parse_single_product] builds from a card that is read
    without a session (a card without link); [zero] fills the price of the
    record returned for a card that cannot be read. *)
Definition read_card (zero : F) (c : Card) : Product :=
  match fst (parse_single_product c (initial (fun _ => blank_page))) with
  | Ret p => p
  | _ => {| title := ""; description := ""; price := zero; rating := 0%Z;
            num_of_reviews := 0%Z; additional_info := [] |}
  end.

(** The session [r] is open and shows the page [p]. *)
Definition showing (w : World) (r : ref) (p : Page) : Prop :=
  nth_error (heap w) r = Some {| current := p; closed := false |}.

(** The world after session [r] has been made to show [p]. *)
Definition turn (r : ref) (p : Page) (w : World) : World :=
  set_heap (set_nth r {| current := p; closed := false |} (heap w)) w.

(** Browsing changes the pages shown, the log and the printed lines; it
    never changes the global handle, the site or the files. *)
Definition frame (w w' : World) : Prop :=
  _driver w' = _driver w /\ web w' = web w /\ files w' = files w.

Definition framed {A : Type} (m : M A) : Prop :=
  forall w, frame w (snd (m w)).

(** The buttons of a block that are not marked disabled. *)
Definition enabled (bs : list Button) : list Button :=
  filter (fun b => negb (btn_disabled b)) bs.

(** [prices[k] = v] for each pair, in order. *)
Definition assign_all (V : Type) (kvs : list (string * V)) (d : dict V)
  : dict V :=
  fold_left (fun d kv => dict_set (fst kv) (snd kv) d) kvs d.

(** The commands of [parse_hdd_block_prices] that lead to the loop: load
    the detail page, dismiss the banner, locate the buttons. *)
Definition locate_buttons (d : option ref) (link : string)
  : M (list WebElement) :=
  get d (urljoin BASE_URL link) ;;
  close_cookie_banner ;;
  swatches_elem <- find_element d CLASS_NAME_swatches ;;
  find_elements_in d swatches_elem TAG_NAME_button.

(** What [visit_button] does once the click has gone through: read the
    price shown and assign it to the key [value]. *)
Definition record_price (d : option ref) (button : WebElement)
    (prices : dict F) : M (dict F) :=
  price_element <- find_element d CLASS_NAME_price ;;
  price_str <- text d price_element ;;
  price_value <- float_ (replace_dollar price_str) ;;
  value <- get_property_value button ;;
  ret (dict_set value price_value prices).

(** The run of [parse_hdd_block_prices card] from [w0] has located the
    buttons [pre ++ b :: post], has gone through [pre] and stands in [w],
    with the prices [acc], about to visit [b]. *)
Definition reaches_button (card : Card) (w0 : World) (d : option ref)
    (pre : list Button) (b : Button) (post : list Button)
    (acc : dict F) (w : World) : Prop :=
  exists link wl,
    detail_link card = Some link
    /\ _driver w0 = d
    /\ locate_buttons d link w0 = (Ret (map ElSwatch (pre ++ b :: post)), wl)
    /\ for_buttons d (map ElSwatch pre) [] wl = (Ret acc, w).

(** The cards the traversal reads, pass after pass: the cards of the page,
    then, after each click on the reveal control, the cards of the page
    again with the new batch at the end. *)
Fixpoint passes (cs : list Card) (batches : list (list Card)) : list Card :=
  cs ++ match batches with
        | [] => []
        | b :: rest => passes (cs ++ b) rest
        end.

(** The clicks on the reveal control recorded in a log. *)
Fixpoint more_clicks (l : list Event) : nat :=
  match l with
  | [] => 0
  | EvClick ElBtnMore :: l' => S (more_clicks l')
  | _ :: l' => more_clicks l'
  end.

(** C2 as the specification words it: when the traversal of one section
    fails, every later section still gets its file. *)
Definition sections_isolated : Prop :=
  forall fuel w pre page_name url post w1 e w2,
    PRODUCT_PAGES = pre ++ (page_name, url) :: post ->
    for_pages fuel pre w = (Ret tt, w1) ->
    scrape_page fuel url page_name w1 = (Exc e, w2) ->
    forall n u,
      In (n, u) post ->
      dict_get (n ++ ".csv")%string (files (snd (get_all_products fuel w)))
      <> None.

(** C4 as the specification words it: for a card with a link, the call
    returns the empty mapping exactly when the detail page has no variant
    block. *)
Definition empty_iff_no_variant_block : Prop :=
  forall card link w r p,
    detail_link card = Some link ->
    _driver w = Some r -> showing w r p ->
    (fst (parse_hdd_block_prices card w) = Ret []
     <-> swatches (web w (urljoin BASE_URL link)) = None).

(** C6 as the specification words it: the mapping has one entry per
    enabled button, under that button's value, and no key of a disabled
    button. *)
Definition one_entry_per_enabled_button : Prop :=
  forall card link w w' prices bs,
    detail_link card = Some link ->
    parse_hdd_block_prices card w = (Ret prices, w') ->
    swatches (web w (urljoin BASE_URL link)) = Some bs ->
    List.length prices = List.length (enabled bs)
    /\ (forall b, In b (enabled bs) -> In (btn_value b) (keys prices))
    /\ (forall b, In b bs -> btn_disabled b = true ->
                  ~ In (btn_value b) (keys prices)).

(** No session is created or dropped. *)
Definition steady {A : Type} (m : M A) : Prop :=
  forall w, List.length (heap (snd (m w))) = List.length (heap w).

(** Two pages that differ at most in their banner and in the price they
    show. *)
Definition same_content (p p' : Page) : Prop :=
  thumbnails p' = thumbnails p /\ reveal p' = reveal p
  /\ swatches p' = swatches p /\ pagination p' = pagination p.

(** The price the page shows once the button has been activated, as
    [float] reads it. *)
Definition price_of (b : Button) : option F :=
  match btn_price b with
  | Some shown => float (replace_dollar shown)
  | None => None
  end.

(** The price read for a button, [zero] when it cannot be read. *)
Definition shown_price (zero : F) (b : Button) : F :=
  match price_of b with
  | Some f => f
  | None => zero
  end.

(** The world after the session [r] has loaded [url]. *)
Definition loaded (r : ref) (url : string) (w : World) : World :=
  snd (get (Some r) url w).

(** The entry a visit of an enabled button writes, when [g] gives the
    price read for each button. *)
Definition entry (g : Button -> F) (b : Button) : string * F :=
  (btn_value b, g b).

(** The link of the last card that has one. *)
Fixpoint last_link (cs : list Card) : option string :=
  match cs with
  | [] => None
  | c :: rest =>
      match last_link rest with
      | Some link => Some link
      | None => detail_link c
      end
  end.

(** The review count of a card can be read. *)
Definition reviews_readable (c : Card) : bool :=
  match reviews_elem c with
  | None => true
  | Some elem_text =>
      match split elem_text with
      | token :: _ => match int token with Some _ => true | None => false end
      | [] => false
      end
  end.

(** Every field [parse_single_product] reads from the card itself is
    there and converts. *)
Definition well_formed (c : Card) : bool :=
  reviews_readable c
  && match title_elem c with
     | Some t => match title_attr t with Some _ => true | None => false end
     | None => false
     end
  && match description_elem c with Some _ => true | None => false end
  && match price_elem c with
     | Some s => match float (replace_dollar s) with Some _ => true | None => false end
     | None => false
     end
  && match rating_elem c with
     | Some s => match int s with Some _ => true | None => false end
     | None => false
     end.

(** The record [p] holds what the card [c] shows. *)
Definition extracted (c : Card) (p : Product) : Prop :=
  (exists t, title_elem c = Some t /\ title_attr t = Some (title p))
  /\ description_elem c = Some (description p)
  /\ (exists s, price_elem c = Some s
                /\ float (replace_dollar s) = Some (price p))
  /\ (exists s, rating_elem c = Some s /\ int s = Some (rating p))
  /\ match reviews_elem c with
     | None => num_of_reviews p = 0%Z
     | Some elem_text =>
         exists token rest,
           split elem_text = token :: rest
           /\ int token = Some (num_of_reviews p)
     end.

(** What one call of [close_cookie_banner] does on a page: whether it
    returns, the events it logs (most recent first) and the page it
    leaves. *)
Definition dismissal_returns (p : Page) : bool :=
  match banner p with
  | Some bn => negb (has_button bn) || displayed bn
  | None => false
  end.

Definition dismissal_events (p : Page) : list Event :=
  match banner p with
  | Some bn =>
      if has_button bn then
        if displayed bn then
          [EvScriptClick ElBannerButton;
           EvWait 10 element_to_be_clickable;
           EvWait 10 presence_of_element_located]
        else
          [EvWait 10 element_to_be_clickable;
           EvWait 10 presence_of_element_located]
      else [EvWait 10 presence_of_element_located]
  | None => [EvWait 10 presence_of_element_located]
  end.

Definition after_dismissal (p : Page) : Page :=
  match banner p with
  | Some bn =>
      if has_button bn && displayed bn then activate ElBannerButton p else p
  | None => p
  end.

(** The clicks on the buttons [bs], most recent first. *)
Definition clicks_on (bs : list Button) : list Event :=
  rev (map (fun b => EvClick (ElSwatch b)) bs).

(** ** Properties *)

(** *** Lists and dictionaries *)

Lemma nth_error_set_nth_eq (A : Type) (l : list A) (n : nat) (x y : A) :
  nth_error l n = Some y -> nth_error (set_nth n x l) n = Some x.
Proof.
  revert n; induction l as [|a l IH]; intros [|n] H; simpl in *;
    try discriminate; auto.
Qed.

Lemma set_nth_set_nth (A : Type) (l : list A) (n : nat) (x y : A) :
  set_nth n x (set_nth n y l) = set_nth n x l.
Proof.
  revert n; induction l as [|a l IH]; intros [|n]; simpl; auto.
  now rewrite IH.
Qed.

Lemma dict_get_set_eq (V : Type) (k : string) (v : V) (d : dict V) :
  dict_get k (dict_set k v d) = Some v.
Proof.
  induction d as [|[k' v'] d IH]; simpl.
  - now rewrite String.eqb_refl.
  - destruct (String.eqb k' k) eqn:E; simpl.
    + now rewrite String.eqb_refl.
    + now rewrite E.
Qed.

Lemma dict_get_set_neq (V : Type) (k k0 : string) (v : V) (d : dict V) :
  k0 <> k -> dict_get k (dict_set k0 v d) = dict_get k d.
Proof.
  intros N. induction d as [|[k' v'] d IH]; simpl.
  - destruct (String.eqb k0 k) eqn:E; auto.
    apply String.eqb_eq in E. contradiction.
  - destruct (String.eqb k' k0) eqn:E; simpl.
    + apply String.eqb_eq in E. subst k'.
      destruct (String.eqb k0 k) eqn:E'; auto.
      apply String.eqb_eq in E'. contradiction.
    + destruct (String.eqb k' k); auto.
Qed.

(** *** The session handle *)

(** C10: the session handle is a process-wide global obeying the get-set
    law: right after [set_driver d], [get_driver] returns [d]; before any
    [set_driver], it returns [None], and the components that use the
    session ([close_cookie_banner], [parse_hdd_block_prices] on a card with
    a link, [scrape_page], [get_all_products]) then call a method on [None],
    which raises [AttributeError] and leaves everything as it was. *)
Theorem get_driver_after_set_driver :
  (forall (d : ref) (w : World),
      (set_driver d ;; get_driver) w = (Ret (Some d), snd (set_driver d w))
      /\ _driver (snd (set_driver d w)) = Some d)
  /\ (forall the_web,
         get_driver (initial the_web) = (Ret None, initial the_web)
         /\ close_cookie_banner (initial the_web)
            = (Exc AttributeError, initial the_web)
         /\ (forall card,
                parse_hdd_block_prices card (initial the_web)
                = match detail_link card with
                  | Some _ => (Exc AttributeError, initial the_web)
                  | None => (Ret [], initial the_web)
                  end)
         /\ (forall fuel url page_name,
                scrape_page fuel url page_name (initial the_web)
                = (Exc AttributeError, initial the_web))
         /\ (forall fuel,
                get_all_products fuel (initial the_web)
                = (Exc AttributeError, initial the_web))).
Proof.
  split.
  - intros d w. split; reflexivity.
  - intros the_web. repeat split; try reflexivity.
    intros card. unfold parse_hdd_block_prices.
    now destruct (detail_link card).
Qed.

(** *** Cards without a link *)

(** Once the variant prices are known, the rest of [parse_single_product]
    reads the card only: it leaves the world alone. *)
Lemma parse_single_product_world (card : Card) (w : World) :
  snd (parse_single_product card w) = snd (parse_hdd_block_prices card w).
Proof.
  unfold parse_single_product, bind at 1.
  destruct (parse_hdd_block_prices card w) as [[h|e|] w1]; simpl; auto.
  unfold bind, count_reviews, int_, float_, ret, raise.
  destruct (reviews_elem card) as [t|];
    [destruct (split t) as [|tok ?]; [reflexivity|destruct (int tok)]; try reflexivity|];
    (destruct (title_elem card) as [te|]; [destruct (title_attr te)|]; try reflexivity;
     destruct (description_elem card); try reflexivity;
     destruct (price_elem card) as [pt|]; try reflexivity;
     destruct (float (replace_dollar pt)); try reflexivity;
     destruct (rating_elem card) as [rt|]; try reflexivity;
     destruct (int rt); reflexivity).
Qed.

Lemma parse_single_product_info (card : Card) (w w' : World) (p : Product) :
  parse_single_product card w = (Ret p, w') ->
  exists h,
    parse_hdd_block_prices card w = (Ret h, w')
    /\ additional_info p = [("hdd_prices", h)].
Proof.
  unfold parse_single_product, bind at 1.
  destruct (parse_hdd_block_prices card w) as [[h|e|] w1]; try discriminate.
  intros H. exists h.
  unfold bind, count_reviews, int_, float_, ret, raise in H.
  destruct (reviews_elem card) as [t|];
    [destruct (split t) as [|tok ?]; [discriminate|destruct (int tok)]; try discriminate|];
    (destruct (title_elem card) as [te|]; [destruct (title_attr te)|]; try discriminate;
     destruct (description_elem card); try discriminate;
     destruct (price_elem card) as [pt|]; try discriminate;
     destruct (float (replace_dollar pt)); try discriminate;
     destruct (rating_elem card) as [rt|]; try discriminate;
     destruct (int rt); try discriminate;
     injection H as <- <-; auto).
Qed.

(** C7: for a card whose title element carries no [href] (or that has no
    title element), [parse_hdd_block_prices] returns the empty mapping at
    once and leaves the world, session included, exactly as it was;
    [parse_single_product] then does not touch the world either, and the
    record it builds has [hdd_prices == {}]. *)
Theorem no_link_empty_mapping (card : Card) (w : World) :
  detail_link card = None ->
  parse_hdd_block_prices card w = (Ret [], w)
  /\ snd (parse_single_product card w) = w
  /\ (forall p, fst (parse_single_product card w) = Ret p ->
                additional_info p = [("hdd_prices", [])]).
Proof.
  intros H.
  assert (E : parse_hdd_block_prices card w = (Ret [], w)).
  { unfold parse_hdd_block_prices. now rewrite H. }
  split; [exact E|]. split.
  - now rewrite parse_single_product_world, E.
  - intros p Hp.
    destruct (parse_single_product card w) as [o w'] eqn:R. simpl in Hp; subst o.
    destruct (parse_single_product_info _ _ R) as (h & Hh & Hi).
    rewrite E in Hh. injection Hh as <- <-. exact Hi.
Qed.

(** *** The review count *)

(** C8: when the card has no review-count element, [parse_single_product]
    sets [num_of_reviews] to 0 and the missing element raises nothing; when
    the element is there, [num_of_reviews] is the first blank-delimited
    token of its text converted by [int].  Stated for a card whose other
    fields can be read, so that the record is built. *)
Theorem num_of_reviews_default
    (card : Card) (w w1 : World) (h : dict F) (te : TitleElem)
    (ti d pt rt : string) (f : F) (r : Z) :
  parse_hdd_block_prices card w = (Ret h, w1) ->
  title_elem card = Some te -> title_attr te = Some ti ->
  description_elem card = Some d ->
  price_elem card = Some pt -> float (replace_dollar pt) = Some f ->
  rating_elem card = Some rt -> int rt = Some r ->
  let record n :=
    {| title := ti; description := d; price := f; rating := r;
       num_of_reviews := n; additional_info := [("hdd_prices", h)] |} in
  parse_single_product card w =
  match reviews_elem card with
  | None => (Ret (record 0%Z), w1)
  | Some elem_text =>
      match split elem_text with
      | token :: _ =>
          match int token with
          | Some n => (Ret (record n), w1)
          | None => (Exc ValueError, w1)
          end
      | [] => (Exc IndexError, w1)
      end
  end.
Proof.
  intros Hh Hte Hti Hd Hpt Hf Hrt Hr record.
  unfold parse_single_product, bind at 1. rewrite Hh.
  unfold bind, count_reviews, int_, float_, ret, raise.
  rewrite Hte, Hti, Hd, Hpt, Hf, Hrt, Hr.
  destruct (reviews_elem card) as [t|]; [|reflexivity].
  destruct (split t) as [|tok ?]; [reflexivity|].
  destruct (int tok); reflexivity.
Qed.

(** *** The CSV table *)

Lemma dict_set_set (V : Type) (k : string) (v v' : V) (d : dict V) :
  dict_set k v' (dict_set k v d) = dict_set k v' d.
Proof.
  induction d as [|[k0 v0] d IH]; simpl.
  - now rewrite String.eqb_refl.
  - destruct (String.eqb k0 k) eqn:E; simpl.
    + now rewrite String.eqb_refl.
    + now rewrite E, IH.
Qed.

Lemma writerows_appends (filename : string) (rows : list Row) :
  forall (t : Table) (w : World),
    dict_get filename (files w) = Some t ->
    writerows filename rows w
    = (Ret tt, set_files (dict_set filename (t ++ rows) (files w)) w).
Proof.
  induction rows as [|row rows IH]; intros t w Hget; cbn [writerows].
  - unfold ret. rewrite app_nil_r.
    assert (E : dict_set filename t (files w) = files w).
    { clear -Hget. induction (files w) as [|[k v] d IHd]; simpl in *.
      - discriminate.
      - destruct (String.eqb k filename) eqn:E.
        + apply String.eqb_eq in E. subst k. now injection Hget as ->.
        + now rewrite IHd. }
    unfold Table in *. rewrite E. now destruct w.
  - unfold bind, writerow. rewrite Hget.
    rewrite (IH (t ++ [row])).
    + cbn [files set_files]. rewrite dict_set_set, <- app_assoc. reflexivity.
    + cbn [files set_files]. apply dict_get_set_eq.
Qed.

Lemma write_products_to_csv_result
    (products : list Product) (filename : string) (w : World) :
  write_products_to_csv products filename w
  = (Ret tt,
     set_files
       (dict_set filename (map CStr PRODUCT_FIELDS :: map astuple products)
          (files w)) w).
Proof.
  unfold write_products_to_csv, bind, open_w, writerow.
  cbn [files set_files]. rewrite dict_get_set_eq.
  rewrite (@writerows_appends filename (map astuple products)
             [map CStr PRODUCT_FIELDS]).
  - cbn [files set_files]. rewrite !dict_set_set. reflexivity.
  - cbn [files set_files]. apply dict_get_set_eq.
Qed.

(** C9: [write_products_to_csv] leaves in the file a table made of the
    header row [title, description, price, rating, num_of_reviews,
    additional_info] followed by exactly one row per record, in order, each
    row holding the record's fields in that column order. *)
Theorem csv_header_then_one_row_per_product
    (products : list Product) (filename : string) (w : World) :
  let header : Row :=
    [CStr "title"; CStr "description"; CStr "price"; CStr "rating";
     CStr "num_of_reviews"; CStr "additional_info"] in
  exists table w',
    write_products_to_csv products filename w = (Ret tt, w')
    /\ dict_get filename (files w') = Some (header :: table)
    /\ List.length table = List.length products
    /\ (forall i p,
           nth_error products i = Some p ->
           nth_error table i
           = Some [CStr (title p); CStr (description p); CFloat (price p);
                   CInt (rating p); CInt (num_of_reviews p);
                   CDict (additional_info p)]).
Proof.
  intros header.
  exists (map astuple products).
  eexists. split; [apply write_products_to_csv_result|].
  split; [|split].
  - cbn [files set_files]. apply dict_get_set_eq.
  - apply length_map.
  - intros i p Hp. rewrite nth_error_map, Hp. reflexivity.
Qed.

(** *** Sessions *)

Lemma session_showing (w : World) (r : ref) (p : Page) :
  showing w r p ->
  session (Some r) w = (Ret {| current := p; closed := false |}, w).
Proof. unfold showing, session. now intros ->. Qed.

Lemma session_inv (d : option ref) (w w' : World) (b : Browser) :
  session d w = (Ret b, w') ->
  exists r, d = Some r /\ w' = w /\ showing w r (current b).
Proof.
  unfold session, showing. destruct d as [r|]; [|discriminate].
  destruct (nth_error (heap w) r) as [b0|] eqn:E; [|discriminate].
  destruct b0 as [p c]; simpl. destruct c; [discriminate|].
  intros H. injection H as <- <-. now exists r.
Qed.

Lemma showing_turn (w : World) (r : ref) (p p' : Page) :
  showing w r p -> showing (turn r p' w) r p'.
Proof. unfold showing, turn. simpl. apply nth_error_set_nth_eq. Qed.

Lemma showing_emit (w : World) (r : ref) (p : Page) (e : Event) :
  showing (emit e w) r p <-> showing w r p.
Proof. reflexivity. Qed.

Lemma showing_fun (w : World) (r : ref) (p p' : Page) :
  showing w r p -> showing w r p' -> p = p'.
Proof. unfold showing. intros -> H. now injection H. Qed.

Lemma showing_stdout (w : World) (r : ref) (p : Page) (o : list Line) :
  showing (set_stdout o w) r p <-> showing w r p.
Proof. reflexivity. Qed.

Create HintDb sess.
#[local] Hint Resolve showing_turn : sess.
#[local] Hint Extern 1 (showing (emit _ _) _ _) => apply showing_emit : sess.
#[local] Hint Extern 1 (showing (set_stdout _ _) _ _) => apply showing_stdout : sess.

(** Sequencing, once the first command has been run. *)
Lemma bind_Ret (A B : Type) (m : M A) (k : A -> M B) (w w' : World) (a : A) :
  m w = (Ret a, w') -> bind m k w = k a w'.
Proof. unfold bind. now intros ->. Qed.

Lemma bind_Exc (A B : Type) (m : M A) (k : A -> M B) (w w' : World) (e : exn) :
  m w = (Exc e, w') -> bind m k w = (Exc e, w').
Proof. unfold bind. now intros ->. Qed.

Lemma bind_Diverge (A B : Type) (m : M A) (k : A -> M B) (w w' : World) :
  m w = (Diverge, w') -> bind m k w = (Diverge, w').
Proof. unfold bind. now intros ->. Qed.

Lemma bind_assoc (A B C : Type) (m : M A) (k : A -> M B) (k' : B -> M C)
    (w : World) :
  bind (bind m k) k' w = bind m (fun a => bind (k a) k') w.
Proof.
  unfold bind. destruct (m w) as [[a|e|] w1]; reflexivity.
Qed.

(** The driver commands on an open session. *)
Lemma get_showing (w : World) (r : ref) (p : Page) (url : string) :
  showing w r p ->
  get (Some r) url w = (Ret tt, turn r (web w url) (emit (EvGet url) w)).
Proof.
  intros Hs. unfold get, bind, record. now rewrite (session_showing Hs).
Qed.

Lemma page_source_showing (w : World) (r : ref) (p : Page) :
  showing w r p -> page_source (Some r) w = (Ret p, w).
Proof.
  intros Hs. unfold page_source, bind. now rewrite (session_showing Hs).
Qed.

Lemma find_elements_showing (w : World) (r : ref) (p : Page) (loc : By) :
  showing w r p -> find_elements (Some r) loc w = (Ret (locate p None loc), w).
Proof.
  intros Hs. unfold find_elements, bind. now rewrite (session_showing Hs).
Qed.

Lemma find_element_showing (w : World) (r : ref) (p : Page) (loc : By) :
  showing w r p ->
  find_element (Some r) loc w
  = (match locate p None loc with
     | el :: _ => Ret el
     | [] => Exc NoSuchElementException
     end, w).
Proof.
  intros Hs. unfold find_element.
  erewrite bind_Ret by (apply find_elements_showing; eassumption).
  now destruct (locate p None loc).
Qed.

Lemma find_elements_in_showing (w : World) (r : ref) (p : Page)
    (el : WebElement) (loc : By) :
  showing w r p ->
  find_elements_in (Some r) el loc w = (Ret (locate p (Some el) loc), w).
Proof.
  intros Hs. unfold find_elements_in, bind. now rewrite (session_showing Hs).
Qed.

Lemma find_element_in_showing (w : World) (r : ref) (p : Page)
    (el : WebElement) (loc : By) :
  showing w r p ->
  find_element_in (Some r) el loc w
  = (match locate p (Some el) loc with
     | x :: _ => Ret x
     | [] => Exc NoSuchElementException
     end, w).
Proof.
  intros Hs. unfold find_element_in.
  erewrite bind_Ret by (apply find_elements_in_showing; eassumption).
  now destruct (locate p (Some el) loc).
Qed.

Lemma click_showing_aux (w : World) (r : ref) (p : Page) (el : WebElement) :
  showing w r p ->
  (record (EvClick el) ;;
   if under_banner el && obstructed p
   then raise ElementClickInterceptedException
   else show (Some r) (activate el p)) w
  = if under_banner el && obstructed p
    then (Exc ElementClickInterceptedException, emit (EvClick el) w)
    else (Ret tt, turn r (activate el p) (emit (EvClick el) w)).
Proof.
  intros Hs. unfold bind, record.
  now destruct (under_banner el && obstructed p).
Qed.

Lemma click_showing (w : World) (r : ref) (p : Page) (el : WebElement) :
  showing w r p ->
  click (Some r) el w
  = if under_banner el && obstructed p
    then (Exc ElementClickInterceptedException, emit (EvClick el) w)
    else (Ret tt, turn r (activate el p) (emit (EvClick el) w)).
Proof.
  intros Hs. unfold click, bind, record. rewrite (session_showing Hs).
  cbn [current]. now destruct (under_banner el && obstructed p).
Qed.

Lemma execute_script_click_showing (w : World) (r : ref) (p : Page)
    (el : WebElement) :
  showing w r p ->
  execute_script_click (Some r) el w
  = (Ret tt, turn r (activate el p) (emit (EvScriptClick el) w)).
Proof.
  intros Hs. unfold execute_script_click, bind, record.
  now rewrite (session_showing Hs).
Qed.

Lemma WebDriverWait_until_showing (w : World) (r : ref) (p : Page)
    (timeout : nat) (c : Cond) :
  showing w r p ->
  WebDriverWait_until (Some r) timeout c w
  = (if condition_holds c p then Ret ElBanner else Exc TimeoutException,
     emit (EvWait timeout c) w).
Proof.
  intros Hs. unfold WebDriverWait_until, bind, record.
  rewrite (session_showing Hs). cbn [current].
  now destruct (condition_holds c p).
Qed.

Lemma text_showing (w : World) (r : ref) (p : Page) (t : string) :
  showing w r p -> price_text p = Some t ->
  text (Some r) ElPrice w = (Ret t, w).
Proof.
  intros Hs Hp. unfold text, bind. rewrite (session_showing Hs).
  cbn [current]. now rewrite Hp.
Qed.

(** *** The overlay dismisser *)

(** What [close_cookie_banner] does, case by case on the banner of the page
    shown. *)
Lemma close_cookie_banner_cases (w : World) (r : ref) (p : Page) :
  _driver w = Some r -> showing w r p ->
  close_cookie_banner w =
  let w1 := emit (EvWait 10 presence_of_element_located) w in
  match banner p with
  | None => (Exc TimeoutException, w1)
  | Some bn =>
      if has_button bn then
        let w2 := emit (EvWait 10 element_to_be_clickable) w1 in
        if displayed bn then
          let w3 := turn r (activate ElBannerButton p)
                      (emit (EvScriptClick ElBannerButton) w2) in
          (Ret tt,
           set_stdout (Text "Cookie banner closed successfully." :: stdout w3) w3)
        else (Exc TimeoutException, w2)
      else
        (Ret tt,
         set_stdout
           (TextExn "Cookie banner not interactable or not present:"
              NoSuchElementException :: stdout w1) w1)
  end.
Proof.
  intros Hd Hs.
  unfold close_cookie_banner, bind at 1. unfold get_driver. rewrite Hd.
  unfold try_except.
  erewrite bind_assoc || idtac.
  destruct (banner p) as [bn|] eqn:Hb.
  - erewrite bind_Ret;
      [|erewrite WebDriverWait_until_showing by eassumption;
        unfold condition_holds; rewrite Hb; reflexivity].
    destruct (has_button bn) eqn:Hbtn.
    + erewrite bind_Ret;
        [|erewrite bind_Ret;
          [|erewrite find_element_showing by eauto with sess;
            unfold locate; rewrite Hb; reflexivity];
          erewrite find_element_in_showing by eauto with sess;
          unfold locate; rewrite Hb, Hbtn; reflexivity].
      destruct (displayed bn) eqn:Hdis.
      * erewrite bind_Ret;
          [|erewrite WebDriverWait_until_showing by eauto with sess;
            unfold condition_holds; rewrite Hb, Hdis; reflexivity].
        erewrite bind_Ret;
          [|erewrite execute_script_click_showing by eauto with sess;
            reflexivity].
        reflexivity.
      * erewrite bind_Exc;
          [|erewrite WebDriverWait_until_showing by eauto with sess;
            unfold condition_holds; rewrite Hb, Hdis; reflexivity].
        reflexivity.
    + erewrite bind_Exc;
        [|erewrite bind_Ret;
          [|erewrite find_element_showing by eauto with sess;
            unfold locate; rewrite Hb; reflexivity];
          erewrite find_element_in_showing by eauto with sess;
          unfold locate; rewrite Hb, Hbtn; reflexivity].
      reflexivity.
  - erewrite bind_Exc;
      [|erewrite WebDriverWait_until_showing by eassumption;
        unfold condition_holds; rewrite Hb; reflexivity].
    reflexivity.
Qed.

(** C3: on a page where the banner never shows up, the wait of
    [close_cookie_banner] for its presence runs out: [until] raises
    [TimeoutException], which the [except] clause does not list, so the
    call raises instead of returning. *)
Theorem close_cookie_banner_absent_raises (w : World) (r : ref) (p : Page) :
  _driver w = Some r -> showing w r p -> banner p = None ->
  close_cookie_banner w
  = (Exc TimeoutException, emit (EvWait 10 presence_of_element_located) w).
Proof.
  intros Hd Hs Hb. rewrite (close_cookie_banner_cases Hd Hs), Hb. reflexivity.
Qed.

(** *** What browsing leaves alone *)

Lemma frame_refl (w : World) : frame w w.
Proof. now repeat split. Qed.

Lemma frame_trans (w1 w2 w3 : World) :
  frame w1 w2 -> frame w2 w3 -> frame w1 w3.
Proof.
  unfold frame. intros (a & b & c) (a' & b' & c').
  repeat split; congruence.
Qed.

Lemma framed_ret (A : Type) (a : A) : framed (ret a).
Proof. intros w. apply frame_refl. Qed.

Lemma framed_raise (A : Type) (e : exn) : framed (@raise A e).
Proof. intros w. apply frame_refl. Qed.

Lemma framed_bind (A B : Type) (m : M A) (k : A -> M B) :
  framed m -> (forall a, framed (k a)) -> framed (bind m k).
Proof.
  intros Hm Hk w. unfold bind. specialize (Hm w).
  destruct (m w) as [[a|e|] w1]; simpl in *; auto.
  eapply frame_trans; [exact Hm|apply Hk].
Qed.

Lemma framed_try_except (A : Type) (body : M A) (classes : list exn)
    (handler : exn -> M A) :
  framed body -> (forall e, framed (handler e)) ->
  framed (try_except body classes handler).
Proof.
  intros Hb Hh w. unfold try_except. specialize (Hb w).
  destruct (body w) as [[a|e|] w1]; simpl in *; auto.
  destruct (existsb _ classes); simpl; auto.
  eapply frame_trans; [exact Hb|apply Hh].
Qed.

Lemma framed_session (d : option ref) : framed (session d).
Proof.
  intros w. unfold session. destruct d as [r|]; [|apply frame_refl].
  destruct (nth_error (heap w) r) as [b|]; [|apply frame_refl].
  destruct (closed b); apply frame_refl.
Qed.

Lemma framed_show (d : option ref) (p : Page) : framed (show d p).
Proof. intros w. unfold show. destruct d; apply frame_refl || now repeat split. Qed.

Lemma framed_record (e : Event) : framed (record e).
Proof. intros w. now repeat split. Qed.

Lemma framed_print (s : string) : framed (print s).
Proof. intros w. now repeat split. Qed.

Lemma framed_print_exn (s : string) (e : exn) : framed (print_exn s e).
Proof. intros w. now repeat split. Qed.

Lemma framed_get_driver : framed get_driver.
Proof. intros w. apply frame_refl. Qed.

Lemma framed_int_ (s : string) : framed (int_ s).
Proof. unfold int_. destruct (int s); [apply framed_ret|apply framed_raise]. Qed.

Lemma framed_float_ (s : string) : framed (float_ s).
Proof. unfold float_. destruct (float s); [apply framed_ret|apply framed_raise]. Qed.

Create HintDb framed.
#[local] Hint Resolve framed_ret framed_raise framed_session framed_show
  framed_record framed_print framed_print_exn framed_get_driver
  framed_int_ framed_float_ : framed.

(** One step through a command built from commands known to be framed. *)
Ltac framing :=
  repeat first
    [ progress auto with framed
    | apply framed_bind; [|intro]
    | apply framed_try_except; [|intro]
    | match goal with
      | |- framed (match ?x with _ => _ end) => destruct x
      | |- framed (if ?x then _ else _) => destruct x
      | |- framed (fun w => _ (web w _) w) =>
          let w := fresh "w" in intro w; cbv beta
      end ].

Lemma framed_get (d : option ref) (url : string) : framed (get d url).
Proof.
  unfold get. framing. apply framed_show.
Qed.

Lemma framed_page_source (d : option ref) : framed (page_source d).
Proof. unfold page_source. framing. Qed.

Lemma framed_find_elements (d : option ref) (loc : By) :
  framed (find_elements d loc).
Proof. unfold find_elements. framing. Qed.

Lemma framed_find_elements_in (d : option ref) (el : WebElement) (loc : By) :
  framed (find_elements_in d el loc).
Proof. unfold find_elements_in. framing. Qed.

#[local] Hint Resolve framed_get framed_page_source framed_find_elements
  framed_find_elements_in : framed.

Lemma framed_find_element (d : option ref) (loc : By) :
  framed (find_element d loc).
Proof. unfold find_element. framing. Qed.

Lemma framed_find_element_in (d : option ref) (el : WebElement) (loc : By) :
  framed (find_element_in d el loc).
Proof. unfold find_element_in. framing. Qed.

Lemma framed_click (d : option ref) (el : WebElement) : framed (click d el).
Proof. unfold click. framing. Qed.

Lemma framed_execute_script_click (d : option ref) (el : WebElement) :
  framed (execute_script_click d el).
Proof. unfold execute_script_click. framing. Qed.

Lemma framed_WebDriverWait_until (d : option ref) (t : nat) (c : Cond) :
  framed (WebDriverWait_until d t c).
Proof. unfold WebDriverWait_until. framing. Qed.

Lemma framed_text (d : option ref) (el : WebElement) : framed (text d el).
Proof. unfold text. framing. Qed.

Lemma framed_get_property_disabled (el : WebElement) :
  framed (get_property_disabled el).
Proof. unfold get_property_disabled. framing. Qed.

Lemma framed_get_property_value (el : WebElement) :
  framed (get_property_value el).
Proof. unfold get_property_value. framing. Qed.

Lemma framed_sleep (n : nat) : framed (sleep n).
Proof. unfold sleep. framing. Qed.

#[local] Hint Resolve framed_find_element framed_find_element_in framed_click
  framed_execute_script_click framed_WebDriverWait_until framed_text
  framed_get_property_disabled framed_get_property_value framed_sleep : framed.

Lemma framed_close_cookie_banner : framed close_cookie_banner.
Proof. unfold close_cookie_banner. framing. Qed.

#[local] Hint Resolve framed_close_cookie_banner : framed.

Lemma framed_visit_button (d : option ref) (button : WebElement)
    (prices : dict F) :
  framed (visit_button d button prices).
Proof. unfold visit_button. framing. Qed.

#[local] Hint Resolve framed_visit_button : framed.

Lemma framed_for_buttons (d : option ref) (buttons : list WebElement) :
  forall prices, framed (for_buttons d buttons prices).
Proof.
  induction buttons as [|b rest IH]; intros prices; simpl; framing.
Qed.

#[local] Hint Resolve framed_for_buttons : framed.

Lemma framed_parse_hdd_block_prices (card : Card) :
  framed (parse_hdd_block_prices card).
Proof. unfold parse_hdd_block_prices. framing. Qed.

#[local] Hint Resolve framed_parse_hdd_block_prices : framed.

Lemma framed_parse_single_product (card : Card) :
  framed (parse_single_product card).
Proof. unfold parse_single_product, count_reviews. framing. Qed.

#[local] Hint Resolve framed_parse_single_product : framed.

Lemma framed_parse_each (cards : list Card) : framed (parse_each cards).
Proof. induction cards as [|c cs IH]; simpl; framing. Qed.

#[local] Hint Resolve framed_parse_each : framed.

Lemma framed_scrape_loop (fuel : nat) (d : option ref) :
  forall products, framed (scrape_loop fuel d products).
Proof.
  induction fuel as [|fuel IH]; intros products; simpl.
  - intros w. apply frame_refl.
  - unfold get_single_page_products. framing.
Qed.

#[local] Hint Resolve framed_scrape_loop : framed.

Lemma framed_scrape_page (fuel : nat) (url page_name : string) :
  framed (scrape_page fuel url page_name).
Proof. unfold scrape_page. framing. Qed.

(** *** The catalogue sections *)

Lemma bind_Ret_inv (A B : Type) (m : M A) (k : A -> M B) (w w' : World) (b : B) :
  bind m k w = (Ret b, w') ->
  exists a w1, m w = (Ret a, w1) /\ k a w1 = (Ret b, w').
Proof.
  unfold bind. destruct (m w) as [[a|e|] w1]; try discriminate.
  intros H. now exists a, w1.
Qed.

Lemma for_pages_app (fuel : nat) (pre post : dict string) (w : World) :
  for_pages fuel (pre ++ post) w
  = (for_pages fuel pre ;; for_pages fuel post) w.
Proof.
  revert w. induction pre as [|[n u] pre IH]; intros w; simpl.
  - reflexivity.
  - unfold bind in *.
    destruct (scrape_page fuel u n w) as [[ps|e|] w1]; try reflexivity.
    destruct (write_products_to_csv ps (n ++ ".csv") w1) as [[[]|e|] w2];
      try reflexivity.
    apply IH.
Qed.

Lemma dict_get_set_keeps (V : Type) (k k0 : string) (v : V) (d : dict V) :
  dict_get k d <> None -> dict_get k (dict_set k0 v d) <> None.
Proof.
  intros H. destruct (string_dec k0 k) as [->|N].
  - now rewrite dict_get_set_eq.
  - now rewrite dict_get_set_neq.
Qed.

(** The sections that [for_pages] completes have their file, and no file
    that was there is lost. *)
Lemma for_pages_files (fuel : nat) (pages : dict string) :
  forall w w',
    for_pages fuel pages w = (Ret tt, w') ->
    (forall n u, In (n, u) pages ->
                 dict_get (n ++ ".csv")%string (files w') <> None)
    /\ (forall k, dict_get k (files w) <> None -> dict_get k (files w') <> None).
Proof.
  induction pages as [|[n u] pages IH]; intros w w' H; simpl in H.
  - injection H as <-. split; [intros ? ? []|auto].
  - apply bind_Ret_inv in H. destruct H as (ps & w1 & Hs & H).
    apply bind_Ret_inv in H. destruct H as ([] & w2 & Hw & H).
    rewrite write_products_to_csv_result in Hw. injection Hw as <-.
    pose proof (framed_scrape_page fuel u n w) as Hf.
    rewrite Hs in Hf. destruct Hf as (_ & _ & Hf). simpl in Hf.
    destruct (IH _ _ H) as [IH1 IH2]. split.
    + intros n' u' [E|Hin].
      * injection E as <- <-. apply IH2. cbn [files set_files].
        now rewrite dict_get_set_eq.
      * eauto.
    + intros k Hk. apply IH2. cbn [files set_files].
      apply dict_get_set_keeps. now rewrite Hf.
Qed.

(** C2, as the code has it: [get_all_products] has no handler around
    [scrape_page], so the first section whose traversal raises ends the
    whole run with that exception.  The sections before it have their
    files; the run stops in the state the failing traversal left, in which
    the files are those present when that traversal began: neither the
    failing section nor any later one is written. *)
Theorem failing_section_aborts_run
    (fuel : nat) (w w1 w2 : World) (pre post : dict string)
    (page_name url : string) (e : exn) :
  PRODUCT_PAGES = pre ++ (page_name, url) :: post ->
  for_pages fuel pre w = (Ret tt, w1) ->
  scrape_page fuel url page_name w1 = (Exc e, w2) ->
  get_all_products fuel w = (Exc e, w2)
  /\ files w2 = files w1
  /\ (forall n u, In (n, u) pre ->
                  dict_get (n ++ ".csv")%string (files w2) <> None).
Proof.
  intros Hpages Hpre Hfail.
  pose proof (framed_scrape_page fuel url page_name w1) as Hf.
  rewrite Hfail in Hf. destruct Hf as (_ & _ & Hf). simpl in Hf.
  split; [|split].
  - unfold get_all_products. rewrite Hpages, for_pages_app.
    erewrite bind_Ret by exact Hpre.
    simpl. erewrite bind_Exc by exact Hfail. reflexivity.
  - exact Hf.
  - intros n u Hin. rewrite Hf.
    destruct (for_pages_files _ _ _ Hpre) as [H1 _]. eauto.
Qed.

(** *** The variant buttons *)

Lemma dict_set_not_nil (V : Type) (k : string) (v : V) (d : dict V) :
  dict_set k v d <> [].
Proof. destruct d as [|[k' v'] d]; simpl; [|destruct (String.eqb k' k)]; discriminate. Qed.

Lemma assign_all_not_nil (V : Type) (kvs : list (string * V)) :
  forall d, d <> [] -> assign_all kvs d <> [].
Proof.
  induction kvs as [|kv kvs IH]; intros d Hd; simpl; auto.
  apply IH, dict_set_not_nil.
Qed.

Lemma keys_dict_set_fresh (V : Type) (k : string) (v : V) (d : dict V) :
  ~ In k (keys d) -> keys (dict_set k v d) = keys d ++ [k].
Proof.
  induction d as [|[k' v'] d IH]; simpl; intros H; auto.
  destruct (String.eqb k' k) eqn:E.
  - apply String.eqb_eq in E. tauto.
  - simpl. f_equal. apply IH. tauto.
Qed.

Lemma keys_assign_all_fresh (V : Type) (kvs : list (string * V)) :
  forall d,
    NoDup (map fst kvs) ->
    (forall k, In k (map fst kvs) -> ~ In k (keys d)) ->
    keys (assign_all kvs d) = keys d ++ map fst kvs.
Proof.
  induction kvs as [|[k v] kvs IH]; intros d Hnd Hfresh; simpl.
  - now rewrite app_nil_r.
  - inversion Hnd as [|? ? Hk Hnd']; subst.
    rewrite IH; auto.
    + rewrite keys_dict_set_fresh by (apply Hfresh; now left).
      now rewrite <- app_assoc.
    + intros k' Hk'. rewrite keys_dict_set_fresh by (apply Hfresh; now left).
      rewrite in_app_iff. intros [H|[H|[]]].
      * revert H. apply Hfresh. now right.
      * subst k'. contradiction.
Qed.

Lemma NoDup_map_filter (A B : Type) (f : A -> B) (q : A -> bool) (l : list A) :
  NoDup (map f l) -> NoDup (map f (filter q l)).
Proof.
  induction l as [|a l IH]; simpl; intros H; auto.
  inversion H as [|? ? Hn Hnd]; subst.
  destruct (q a); simpl; auto.
  constructor; auto.
  intros Hin. apply Hn. apply in_map_iff in Hin.
  destruct Hin as (x & Hx & Hin). apply filter_In in Hin.
  apply in_map_iff. exists x. tauto.
Qed.

Lemma NoDup_map_inj (A B : Type) (f : A -> B) (l : list A) (x y : A) :
  NoDup (map f l) -> In x l -> In y l -> f x = f y -> x = y.
Proof.
  induction l as [|a l IH]; simpl; intros H Hx Hy E; [contradiction|].
  inversion H as [|? ? Hn Hnd]; subst.
  destruct Hx as [->|Hx], Hy as [->|Hy]; auto.
  - exfalso. apply Hn. rewrite E. now apply in_map.
  - exfalso. apply Hn. rewrite <- E. now apply in_map.
Qed.

Lemma map_fst_combine (A B : Type) (l : list A) :
  forall l' : list B, List.length l' = List.length l -> map fst (combine l l') = l.
Proof.
  induction l as [|a l IH]; intros [|b l'] H; simpl in *; try discriminate; auto.
  f_equal. apply IH. lia.
Qed.

(** A visit that returns has skipped a disabled button and has assigned
    to the key [value] of an enabled one. *)
Lemma visit_button_Ret (d : option ref) (b : Button) (prices prices' : dict F)
    (w w' : World) :
  visit_button d (ElSwatch b) prices w = (Ret prices', w') ->
  if btn_disabled b then prices' = prices
  else exists f, prices' = dict_set (btn_value b) f prices.
Proof.
  unfold visit_button. unfold bind at 1. cbn [get_property_disabled ret].
  destruct (btn_disabled b); cbn [negb].
  - intros H. now injection H as <-.
  - intros H.
    apply bind_Ret_inv in H. destruct H as (_ & w1 & _ & H).
    apply bind_Ret_inv in H. destruct H as (el & w2 & _ & H).
    apply bind_Ret_inv in H. destruct H as (t & w3 & _ & H).
    apply bind_Ret_inv in H. destruct H as (f & w4 & _ & H).
    apply bind_Ret_inv in H. destruct H as (v & w5 & Hv & H).
    injection Hv as <- <-. injection H as <- <-. now exists f.
Qed.

Lemma for_buttons_Ret (d : option ref) (bs : list Button) :
  forall (acc prices : dict F) (w w' : World),
    for_buttons d (map ElSwatch bs) acc w = (Ret prices, w') ->
    exists fs : list F,
      List.length fs = List.length (enabled bs)
      /\ prices = assign_all (combine (map btn_value (enabled bs)) fs) acc.
Proof.
  induction bs as [|b bs IH]; intros acc prices w w' H; simpl in H.
  - injection H as <- <-. now exists [].
  - apply bind_Ret_inv in H. destruct H as (acc' & w1 & Hv & H).
    apply visit_button_Ret in Hv.
    destruct (IH _ _ _ _ H) as (fs & Hlen & Hp).
    unfold enabled. simpl. destruct (btn_disabled b); cbn [negb].
    + subst acc'. now exists fs.
    + destruct Hv as (f & ->). exists (f :: fs). simpl. split; [|exact Hp].
      unfold enabled in Hlen. lia.
Qed.

Lemma get_Ret_inv (d : option ref) (url : string) (w w' : World) :
  get d url w = (Ret tt, w') ->
  exists r p,
    d = Some r /\ showing w r p
    /\ w' = turn r (web w url) (emit (EvGet url) w).
Proof.
  intros H. unfold get in H.
  apply bind_Ret_inv in H. destruct H as (b & w1 & Hs & H).
  apply session_inv in Hs. destruct Hs as (r & -> & -> & Hs).
  exists r, (current b). split; [reflexivity|]. split; [exact Hs|].
  unfold bind, record, show in H. now injection H as <-.
Qed.

(** A dismissal that returns has changed nothing in the page but,
    possibly, its banner. *)
Lemma close_cookie_banner_Ret (w w' : World) (r : ref) (p : Page) :
  _driver w = Some r -> showing w r p ->
  close_cookie_banner w = (Ret tt, w') ->
  exists p',
    showing w' r p'
    /\ thumbnails p' = thumbnails p /\ reveal p' = reveal p
    /\ swatches p' = swatches p /\ price_text p' = price_text p.
Proof.
  intros Hd Hs H. rewrite (close_cookie_banner_cases Hd Hs) in H.
  cbv zeta in H.
  destruct (banner p) as [bn|] eqn:Hb; [|discriminate].
  destruct (has_button bn).
  - destruct (displayed bn); [|discriminate].
    injection H as <-. exists (activate ElBannerButton p). split.
    + apply showing_stdout. eapply showing_turn.
      apply showing_emit, showing_emit, showing_emit. exact Hs.
    + unfold activate. rewrite Hb. now destruct (sticky bn).
  - injection H as <-. exists p. split; [|auto].
    apply showing_stdout, showing_emit. exact Hs.
Qed.

(** A call of [parse_hdd_block_prices] that returns for a card with a link
    has found the variant block of the detail page and looped over its
    buttons. *)
Lemma parse_hdd_block_prices_Ret (card : Card) (link : string)
    (w w' : World) (prices : dict F) :
  detail_link card = Some link ->
  parse_hdd_block_prices card w = (Ret prices, w') ->
  exists r bs wl,
    _driver w = Some r
    /\ swatches (web w (urljoin BASE_URL link)) = Some bs
    /\ for_buttons (Some r) (map ElSwatch bs) [] wl = (Ret prices, w').
Proof.
  intros Hl H. unfold parse_hdd_block_prices in H. rewrite Hl in H.
  cbv zeta in H.
  apply bind_Ret_inv in H. destruct H as (d & w1 & Hd & H).
  injection Hd as <- <-.
  apply bind_Ret_inv in H. destruct H as ([] & w2 & Hg & H).
  apply get_Ret_inv in Hg. destruct Hg as (r & p & Hr & Hs & ->).
  apply bind_Ret_inv in H. destruct H as ([] & w3 & Hc & H).
  eapply close_cookie_banner_Ret in Hc;
    [|exact Hr|eapply showing_turn, showing_emit, Hs].
  destruct Hc as (p3 & Hs3 & _ & _ & Hsw & _).
  cbn [web emit turn set_heap] in Hsw.
  apply bind_Ret_inv in H. destruct H as (el & w4 & Hf & H).
  rewrite Hr in Hf, H.
  rewrite (find_element_showing _ Hs3) in Hf.
  unfold locate in Hf. rewrite Hsw in Hf.
  destruct (swatches (web w (urljoin BASE_URL link))) as [bs|] eqn:Hbs;
    [|discriminate].
  injection Hf as <- <-.
  apply bind_Ret_inv in H. destruct H as (buttons & w5 & Hf & H).
  rewrite (find_elements_in_showing _ _ Hs3) in Hf.
  unfold locate in Hf. rewrite Hsw in Hf. injection Hf as <- <-.
  exists r, bs, w3. auto.
Qed.

Lemma enabled_nil_iff (bs : list Button) :
  enabled bs = [] <-> (forall b, In b bs -> btn_disabled b = true).
Proof.
  unfold enabled. induction bs as [|b bs IH]; simpl.
  - split; [intros _ ? []|auto].
  - destruct (btn_disabled b) eqn:E; cbn [negb].
    + rewrite IH. split.
      * intros H x [<-|Hx]; auto.
      * intros H x Hx. apply H. now right.
    + split; [discriminate|].
      intros H. specialize (H b (or_introl eq_refl)). congruence.
Qed.

(** C4, as the code has it: for a card with a link whose detail page has
    a variant block, whenever [parse_hdd_block_prices] returns a mapping,
    the mapping is empty exactly when none of the block's buttons is
    enabled. *)
Theorem empty_mapping_iff_no_enabled_button
    (card : Card) (link : string) (w w' : World) (prices : dict F)
    (bs : list Button) :
  detail_link card = Some link ->
  swatches (web w (urljoin BASE_URL link)) = Some bs ->
  parse_hdd_block_prices card w = (Ret prices, w') ->
  (prices = [] <-> (forall b, In b bs -> btn_disabled b = true)).
Proof.
  intros Hl Hbs H.
  edestruct parse_hdd_block_prices_Ret as (r & bs' & wl & _ & Hbs' & Hloop);
    [exact Hl|exact H|].
  rewrite Hbs in Hbs'. injection Hbs' as <-.
  edestruct for_buttons_Ret as (fs & Hlen & Hp); [exact Hloop|]. subst prices.
  rewrite <- enabled_nil_iff. split.
  - intros Hnil. destruct (enabled bs) as [|b0 bs0]; [reflexivity|].
    destruct fs as [|f fs]; [discriminate|].
    exfalso. simpl in Hnil. revert Hnil.
    apply assign_all_not_nil. discriminate.
  - intros ->. reflexivity.
Qed.

(** C6, as the code has it: when the buttons of the variant block carry
    pairwise distinct values, the mapping returned has exactly one entry
    per enabled button, in the order of the buttons, keyed by the button's
    [value] property, and no key that is the value of a disabled button. *)
Theorem keys_are_enabled_button_values
    (card : Card) (link : string) (w w' : World) (prices : dict F)
    (bs : list Button) :
  detail_link card = Some link ->
  parse_hdd_block_prices card w = (Ret prices, w') ->
  swatches (web w (urljoin BASE_URL link)) = Some bs ->
  NoDup (map btn_value bs) ->
  keys prices = map btn_value (enabled bs)
  /\ List.length prices = List.length (enabled bs)
  /\ (forall b, In b bs -> btn_disabled b = true ->
                ~ In (btn_value b) (keys prices)).
Proof.
  intros Hl H Hbs Hnd.
  edestruct parse_hdd_block_prices_Ret as (r & bs' & wl & _ & Hbs' & Hloop);
    [exact Hl|exact H|].
  rewrite Hbs in Hbs'. injection Hbs' as <-.
  edestruct for_buttons_Ret as (fs & Hlen & Hp); [exact Hloop|].
  assert (Hk : keys prices = map btn_value (enabled bs)).
  { subst prices. rewrite keys_assign_all_fresh.
    - simpl. apply map_fst_combine. now rewrite length_map.
    - rewrite map_fst_combine by now rewrite length_map.
      now apply NoDup_map_filter.
    - intros k _ []. }
  split; [exact Hk|]. split.
  - unfold keys in Hk. rewrite <- (length_map fst prices), Hk.
    apply length_map.
  - intros b Hb Hdis Hin. rewrite Hk in Hin.
    apply in_map_iff in Hin. destruct Hin as (b' & Hv & Hb').
    unfold enabled in Hb'. apply filter_In in Hb'. destruct Hb' as [Hb' He].
    assert (b' = b) by (eapply NoDup_map_inj; eauto).
    subst b'. rewrite Hdis in He. discriminate.
Qed.

(** *** Intercepted clicks *)

Lemma for_buttons_app (d : option ref) (l1 l2 : list WebElement) :
  forall (acc : dict F) (w : World),
    for_buttons d (l1 ++ l2) acc w
    = (acc' <- for_buttons d l1 acc ;; for_buttons d l2 acc') w.
Proof.
  induction l1 as [|b l1 IH]; intros acc w; simpl.
  - reflexivity.
  - unfold bind in *.
    destruct (visit_button d b acc w) as [[acc'|e|] w1]; try reflexivity.
    apply IH.
Qed.

Lemma parse_hdd_block_prices_loop (card : Card) (link : string) (w : World) :
  detail_link card = Some link ->
  parse_hdd_block_prices card w
  = (buttons <- locate_buttons (_driver w) link ;;
     for_buttons (_driver w) buttons []) w.
Proof.
  intros Hl. unfold parse_hdd_block_prices, locate_buttons. rewrite Hl.
  cbv zeta. unfold bind at 1. unfold get_driver.
  unfold bind.
  destruct (get (_driver w) (urljoin BASE_URL link) w) as [[[]|e|] w1];
    try reflexivity.
  destruct (close_cookie_banner w1) as [[[]|e|] w2]; try reflexivity.
  destruct (find_element (_driver w) CLASS_NAME_swatches w2) as [[el|e|] w3];
    try reflexivity.
Qed.

Lemma framed_locate_buttons (d : option ref) (link : string) :
  framed (locate_buttons d link).
Proof. unfold locate_buttons. framing. Qed.

Lemma click_intercepted_inv (d : option ref) (el : WebElement) (w w1 : World) :
  click d el w = (Exc ElementClickInterceptedException, w1) ->
  exists r p,
    d = Some r /\ showing w r p /\ obstructed p = true
    /\ w1 = emit (EvClick el) w.
Proof.
  intros H. unfold click, bind at 1 in H.
  destruct (session d w) as [[br|e|] w'] eqn:Hs.
  - apply session_inv in Hs. destruct Hs as (r & -> & -> & Hs).
    rewrite (click_showing_aux el Hs) in H.
    exists r, (current br). split; [reflexivity|]. split; [exact Hs|].
    destruct (under_banner el && obstructed (current br)) eqn:E.
    + injection H as <-. apply andb_true_iff in E. tauto.
    + discriminate.
  - unfold session in Hs. destruct d as [r|].
    + destruct (nth_error (heap w) r) as [b0|]; [destruct (closed b0)|];
        inversion Hs; subst; discriminate.
    + inversion Hs; subst; discriminate.
  - discriminate.
Qed.

Lemma visit_button_intercepted (d : option ref) (b : Button) (acc : dict F)
    (w w1 w2 : World) :
  btn_disabled b = false ->
  click d (ElSwatch b) w = (Exc ElementClickInterceptedException, w1) ->
  close_cookie_banner w1 = (Ret tt, w2) ->
  visit_button d (ElSwatch b) acc w
  = (click d (ElSwatch b) ;; record_price d (ElSwatch b) acc) w2.
Proof.
  intros Hdis Hclick Hclose.
  unfold visit_button. unfold bind at 1. cbn [get_property_disabled ret].
  rewrite Hdis. cbn [negb]. fold (record_price d (ElSwatch b) acc).
  unfold bind at 1 3. unfold try_except. rewrite Hclick.
  cbn [existsb]. destruct (exn_eq_dec _ _) as [_|N]; [|congruence].
  cbn [orb]. unfold bind at 1. rewrite Hclose.
  destruct (click d (ElSwatch b) w2) as [[[]|e|] w3]; reflexivity.
Qed.

Lemma bind_same (A B : Type) (m m' : M A) (k : A -> M B) (w w' : World) :
  m w = m' w' -> bind m k w = bind m' k w'.
Proof. unfold bind. now intros ->. Qed.

(** One call of the dismisser, on an open session. *)
Lemma close_cookie_banner_dismissal (w : World) (r : ref) (p : Page) :
  _driver w = Some r -> showing w r p ->
  exists w',
    close_cookie_banner w
    = (if dismissal_returns p then Ret tt else Exc TimeoutException, w')
    /\ log w' = dismissal_events p ++ log w
    /\ showing w' r (after_dismissal p).
Proof.
  intros Hd Hs. rewrite (close_cookie_banner_cases Hd Hs). cbv zeta.
  unfold dismissal_returns, dismissal_events, after_dismissal.
  destruct (banner p) as [bn|] eqn:Hb.
  - destruct (has_button bn); [destruct (displayed bn)|];
      cbn [negb orb andb]; eexists; (split; [reflexivity|]);
      (split; [reflexivity|]).
    + apply showing_stdout. eapply showing_turn.
      apply showing_emit, showing_emit, showing_emit. exact Hs.
    + apply showing_emit, showing_emit. exact Hs.
    + apply showing_stdout, showing_emit. exact Hs.
  - eexists. split; [reflexivity|]. split; [reflexivity|].
    apply showing_emit. exact Hs.
Qed.

(** C5: what [parse_hdd_block_prices] does when the click on an enabled
    variant button is intercepted.  The handler calls the dismisser once:
    the log grows by the events of one call on the page shown.  When the
    dismisser returns (the page has a banner that is displayed or carries
    no button), the button is clicked once more; if that click is
    intercepted too, [ElementClickInterceptedException] leaves the call, no
    mapping is returned and no later button is visited; if it goes
    through, the call carries on reading the price of that button.  When
    the dismisser raises (the page has no banner, or a hidden one: the
    click was taken by another element), [TimeoutException] leaves the
    call and the button is not clicked again. *)
Theorem intercepted_click_then_dismissal
    (card : Card) (w0 w w1 : World) (r : ref) (p : Page)
    (pre post : list Button) (b : Button) (acc : dict F) :
  reaches_button card w0 (Some r) pre b post acc w ->
  showing w r p ->
  btn_disabled b = false ->
  click (Some r) (ElSwatch b) w = (Exc ElementClickInterceptedException, w1) ->
  exists w2,
    snd (close_cookie_banner w1) = w2
    /\ log w2 = dismissal_events p ++ EvClick (ElSwatch b) :: log w
    /\ if dismissal_returns p
       then
         close_cookie_banner w1 = (Ret tt, w2)
         /\ exists o w3,
              click (Some r) (ElSwatch b) w2 = (o, w3)
              /\ log w3 = EvClick (ElSwatch b) :: log w2
              /\ match o with
                 | Exc e =>
                     e = ElementClickInterceptedException
                     /\ obstructed (after_dismissal p) = true
                     /\ parse_hdd_block_prices card w0
                        = (Exc ElementClickInterceptedException, w3)
                 | Ret _ =>
                     obstructed (after_dismissal p) = false
                     /\ parse_hdd_block_prices card w0
                        = (prices <- record_price (Some r) (ElSwatch b) acc ;;
                           for_buttons (Some r) (map ElSwatch post) prices) w3
                 | Diverge => False
                 end
       else
         close_cookie_banner w1 = (Exc TimeoutException, w2)
         /\ parse_hdd_block_prices card w0 = (Exc TimeoutException, w2).
Proof.
  intros (link & wl & Hl & Hd & Hloc & Hpre) Hs Hdis Hclick.
  destruct (click_intercepted_inv _ _ _ Hclick)
    as (r' & p' & Hr & Hs' & Hob & ->).
  injection Hr as <-.
  assert (p' = p) by (eapply showing_fun; eassumption). subst p'.
  assert (Hdw : _driver w = Some r).
  { pose proof (framed_locate_buttons (Some r) link w0) as F1.
    pose proof (framed_for_buttons (Some r) (map ElSwatch pre) [] wl) as F2.
    rewrite Hloc in F1. rewrite Hpre in F2. simpl in F1, F2.
    destruct F1 as (F1 & _), F2 as (F2 & _). congruence. }
  set (w1 := emit (EvClick (ElSwatch b)) w) in *.
  assert (Hs1 : showing w1 r p) by (apply showing_emit; exact Hs).
  destruct (@close_cookie_banner_dismissal w1 r p Hdw Hs1)
    as (w2 & Hclose & Hlog & Hs2).
  exists w2. split; [now rewrite Hclose|]. split; [exact Hlog|].
  assert (Hloop : parse_hdd_block_prices card w0
                  = (prices <- visit_button (Some r) (ElSwatch b) acc ;;
                     for_buttons (Some r) (map ElSwatch post) prices) w).
  { rewrite (parse_hdd_block_prices_loop card w0 Hl), Hd.
    erewrite bind_Ret by exact Hloc.
    rewrite map_app, for_buttons_app.
    erewrite bind_Ret by exact Hpre.
    reflexivity. }
  rewrite Hloop.
  destruct (dismissal_returns p).
  - split; [exact Hclose|].
    assert (Hv := visit_button_intercepted _ _ acc _ Hdis Hclick Hclose).
    assert (Hretry := click_showing (ElSwatch b) Hs2).
    cbn [under_banner andb] in Hretry.
    destruct (obstructed (after_dismissal p)).
    + eexists _, _. split; [exact Hretry|]. split; [reflexivity|].
      split; [reflexivity|]. split; [reflexivity|].
      erewrite bind_Exc; [reflexivity|].
      rewrite Hv. erewrite bind_Exc by exact Hretry. reflexivity.
    + eexists _, _. split; [exact Hretry|]. split; [reflexivity|].
      split; [reflexivity|].
      apply bind_same.
      rewrite Hv. erewrite bind_Ret by exact Hretry. reflexivity.
  - split; [exact Hclose|].
    erewrite bind_Exc; [reflexivity|].
    unfold visit_button. unfold bind at 1.
    cbn [get_property_disabled ret]. rewrite Hdis. cbn [negb].
    unfold bind at 1. unfold try_except. rewrite Hclick.
    cbn [existsb]. destruct (exn_eq_dec _ _) as [_|N]; [|congruence].
    cbn [orb]. unfold bind at 1. rewrite Hclose. reflexivity.
Qed.

(** *** Traversing a listing *)

Lemma length_passes (K : nat) (batches : list (list Card)) :
  forall cs,
    Forall (fun b => List.length b = K) batches ->
    2 * List.length (passes cs batches)
    = 2 * S (List.length batches) * List.length cs
      + K * List.length batches * S (List.length batches).
Proof.
  induction batches as [|b rest IH]; intros cs HK; simpl.
  - rewrite app_nil_r. lia.
  - inversion HK as [|? ? Hb Hrest]; subst.
    rewrite length_app. specialize (IH (cs ++ b) Hrest).
    rewrite length_app in IH.
    set (L := List.length (passes (cs ++ b) rest)) in *.
    set (N := List.length rest) in *.
    set (n := List.length cs) in *.
    set (K := List.length b) in *.
    nia.
Qed.

Lemma NoDup_app_disjoint (A : Type) (l1 l2 : list A) (x : A) :
  NoDup (l1 ++ l2) -> In x l1 -> In x l2 -> False.
Proof.
  induction l1 as [|a l1 IH]; simpl; intros H H1 H2; [contradiction|].
  inversion H as [|? ? Hn Hnd]; subst.
  destruct H1 as [->|H1].
  - apply Hn, in_or_app. now right.
  - now apply IH.
Qed.

Lemma parse_each_pure (ext : Card -> Product) (cs : list Card) :
  (forall c, In c cs ->
             forall w, parse_single_product c w = (Ret (ext c), w)) ->
  forall w, parse_each cs w = (Ret (map ext cs), w).
Proof.
  induction cs as [|c cs IH]; intros H w; simpl.
  - reflexivity.
  - erewrite bind_Ret by (apply H; now left).
    erewrite bind_Ret by (apply IH; intros; apply H; now right).
    reflexivity.
Qed.

(** The loop of [scrape_page] on a page whose cards are read without
    browsing (they carry no link): every pass reads all the cards of the
    page, those of the earlier passes included. *)
Lemma scrape_loop_passes (ext : Card -> Product) (r : ref)
    (batches : list (list Card)) :
  forall (fuel : nat) (acc : list Product) (w : World) (p : Page),
    showing w r p ->
    reveal p = batches ->
    obstructed p = false ->
    (forall c, In c (thumbnails p ++ List.concat batches) ->
               forall w', parse_single_product c w' = (Ret (ext c), w')) ->
    List.length batches < fuel ->
    exists w',
      scrape_loop fuel (Some r) acc w
      = (Ret (acc ++ map ext (passes (thumbnails p) batches)), w')
      /\ more_clicks (log w') = more_clicks (log w) + List.length batches.
Proof.
  induction batches as [|b rest IH]; intros fuel acc w p Hs Hr Hob Hext Hfuel;
    (destruct fuel as [|fuel]; [simpl in Hfuel; lia|]);
    cbn [scrape_loop];
    (erewrite bind_Ret by (apply page_source_showing; exact Hs));
    unfold get_single_page_products;
    (erewrite bind_Ret by
        (apply parse_each_pure; intros c Hc; apply Hext, in_or_app; now left));
    (erewrite bind_Ret by (apply find_elements_showing; exact Hs));
    unfold locate; rewrite Hr.
  - exists w. simpl. rewrite app_nil_r. split; [reflexivity|lia].
  - assert (Hclick := click_showing ElBtnMore Hs).
    rewrite Hob in Hclick. cbn [under_banner andb] in Hclick.
    erewrite bind_Ret by exact Hclick.
    unfold sleep at 1. unfold bind at 1, record at 1.
    set (p' := activate ElBtnMore p) in *.
    set (w1 := emit (EvSleep 2) (turn r p' (emit (EvClick ElBtnMore) w))).
    assert (Hp' : p' = {| thumbnails := thumbnails p ++ b; reveal := rest;
                          banner := banner p; swatches := swatches p;
                          price_text := price_text p;
                          pagination := pagination p;
                          overlay := overlay p |}).
    { subst p'. unfold activate, reveal_more. now rewrite Hr. }
    assert (Hs1 : showing w1 r p').
    { subst w1. apply showing_emit. eapply showing_turn.
      apply showing_emit. exact Hs. }
    destruct (IH fuel (acc ++ map ext (thumbnails p)) w1 p' Hs1) as (w' & Hrun & Hlog).
    + now rewrite Hp'.
    + rewrite Hp'. exact Hob.
    + rewrite Hp'. cbn [thumbnails]. intros c Hc. apply Hext.
      simpl. rewrite <- app_assoc in Hc. exact Hc.
    + simpl in Hfuel. lia.
    + exists w'. split.
      * etransitivity; [exact Hrun|]. rewrite Hp'. cbn [thumbnails passes].
        now rewrite map_app, <- app_assoc.
      * rewrite Hlog. subst w1. simpl. lia.
Qed.

(** C1: what [scrape_page] returns on a listing whose reveal control can
    be clicked [N] times, each click appending [K] cards, when the cards
    carry no link (so that the session stays on the listing): every pass
    of the loop reads the whole page again, so the result lists the cards
    of all [N + 1] passes.  Its length is
    [(N + 1) * initial + K * N * (N + 1) / 2], not [initial + N * K], and
    as soon as a card is there before a click, it is in the result twice. *)
Theorem scrape_page_rereads_every_pass
    (ext : Card -> Product) (fuel : nat) (url page_name : string)
    (w : World) (r : ref) (p0 : Page) (K : nat) :
  _driver w = Some r -> showing w r p0 ->
  obstructed (web w url) = false ->
  Forall (fun b => List.length b = K) (reveal (web w url)) ->
  (forall c, In c (thumbnails (web w url) ++ List.concat (reveal (web w url))) ->
             forall w', parse_single_product c w' = (Ret (ext c), w')) ->
  List.length (reveal (web w url)) < fuel ->
  let initial_count := List.length (thumbnails (web w url)) in
  let N := List.length (reveal (web w url)) in
  exists products w',
    scrape_page fuel url page_name w = (Ret products, w')
    /\ products
       = map ext (passes (thumbnails (web w url)) (reveal (web w url)))
    /\ more_clicks (log w') = more_clicks (log w) + N
    /\ 2 * List.length products
       = 2 * (N + 1) * initial_count + K * N * (N + 1)
    /\ (1 <= N -> 1 <= initial_count -> ~ NoDup products).
Proof.
  intros Hd Hs Hob HK Hext Hfuel initial_count N.
  set (page := web w url) in *.
  set (w1 := emit (EvSleep 2) (turn r page (emit (EvGet url) w))).
  assert (Hs1 : showing w1 r page).
  { subst w1. apply showing_emit. eapply showing_turn.
    apply showing_emit. exact Hs. }
  destruct (@scrape_loop_passes ext r (reveal page) fuel [] w1 page Hs1
              eq_refl Hob Hext Hfuel) as (w' & Hrun & Hlog).
  exists (map ext (passes (thumbnails page) (reveal page))), w'.
  split; [|split; [reflexivity|split; [|split]]].
  - unfold scrape_page. unfold bind at 1. unfold get_driver. rewrite Hd.
    erewrite bind_Ret by (eapply get_showing; exact Hs).
    unfold sleep, bind at 1, record. exact Hrun.
  - rewrite Hlog. subst w1. simpl. reflexivity.
  - rewrite length_map. rewrite (length_passes (thumbnails page) HK).
    subst N initial_count. lia.
  - subst N initial_count. intros HN Hn Hnd.
    destruct (reveal page) as [|b rest]; [simpl in HN; lia|].
    destruct (thumbnails page) as [|c cs] eqn:Hcs; [simpl in Hn; lia|].
    cbn [passes] in Hnd. rewrite map_app in Hnd.
    apply (NoDup_app_disjoint _ _ (ext c) Hnd).
    + apply in_map. now left.
    + apply in_map. destruct rest; simpl; now left.
Qed.

(** ** Further properties *)

(** *** The page count *)

Lemma last_but_one_app (A : Type) (l : list A) (x y : A) :
  last_but_one (l ++ [x; y]) = Some x.
Proof. unfold last_but_one. rewrite rev_app_distr. reflexivity. Qed.

Lemma last_but_one_short (A : Type) (l : list A) :
  List.length l < 2 -> last_but_one l = None.
Proof.
  destruct l as [|a [|b l]]; simpl; intros H; try reflexivity. lia.
Qed.

(** X1: [get_num_pages] reads the page only.  A page with a pagination
    element of at least two items yields the number written in the item
    before the last one, or [ValueError] when that item is no number; a
    pagination with fewer than two items raises [IndexError]. *)
Theorem get_num_pages_last_but_one
    (page : Page) (items : list string) (w : World) :
  pagination page = Some items ->
  (List.length items < 2 -> get_num_pages page w = (Exc IndexError, w))
  /\ (forall l x y,
         items = l ++ [x; y] ->
         get_num_pages page w
         = (match int x with Some n => Ret n | None => Exc ValueError end, w)).
Proof.
  intros Hp. unfold get_num_pages. rewrite Hp. split.
  - intros Hlen. now rewrite last_but_one_short.
  - intros l x y ->. rewrite last_but_one_app. unfold int_.
    now destruct (int x).
Qed.

(** *** Files *)

(** X2: [write_products_to_csv] changes the file it is given and nothing
    else: every other file keeps its content, and the session handle, the
    sessions, the log and the printed lines are as before. *)
Theorem write_products_to_csv_touches_one_file
    (products : list Product) (filename : string) (w : World) :
  let w' := snd (write_products_to_csv products filename w) in
  (forall other, other <> filename ->
                 dict_get other (files w') = dict_get other (files w))
  /\ _driver w' = _driver w /\ heap w' = heap w /\ web w' = web w
  /\ log w' = log w /\ stdout w' = stdout w.
Proof.
  intros w'. subst w'. rewrite write_products_to_csv_result.
  cbn [snd files set_files _driver heap web log stdout].
  split; [|now repeat split].
  intros other Hne. apply dict_get_set_neq. congruence.
Qed.

(** *** Sessions are neither created nor dropped by browsing *)

Lemma length_set_nth (A : Type) (n : nat) (x : A) (l : list A) :
  List.length (set_nth n x l) = List.length l.
Proof.
  revert n; induction l as [|a l IH]; intros [|n]; simpl; auto.
Qed.

Lemma steady_ret (A : Type) (a : A) : steady (ret a).
Proof. intros w. reflexivity. Qed.

Lemma steady_raise (A : Type) (e : exn) : steady (@raise A e).
Proof. intros w. reflexivity. Qed.

Lemma steady_bind (A B : Type) (m : M A) (k : A -> M B) :
  steady m -> (forall a, steady (k a)) -> steady (bind m k).
Proof.
  intros Hm Hk w. unfold bind. specialize (Hm w).
  destruct (m w) as [[a|e|] w1]; simpl in *; auto.
  now rewrite Hk.
Qed.

Lemma steady_try_except (A : Type) (body : M A) (classes : list exn)
    (handler : exn -> M A) :
  steady body -> (forall e, steady (handler e)) ->
  steady (try_except body classes handler).
Proof.
  intros Hb Hh w. unfold try_except. specialize (Hb w).
  destruct (body w) as [[a|e|] w1]; simpl in *; auto.
  destruct (existsb _ classes); simpl; auto.
  now rewrite Hh.
Qed.

Lemma steady_session (d : option ref) : steady (session d).
Proof.
  intros w. unfold session. destruct d as [r|]; [|reflexivity].
  destruct (nth_error (heap w) r) as [b|]; [|reflexivity].
  destruct (closed b); reflexivity.
Qed.

Lemma steady_show (d : option ref) (p : Page) : steady (show d p).
Proof.
  intros w. unfold show. destruct d; [|reflexivity].
  simpl. apply length_set_nth.
Qed.

Lemma steady_record (e : Event) : steady (record e).
Proof. intros w. reflexivity. Qed.

Lemma steady_print (s : string) : steady (print s).
Proof. intros w. reflexivity. Qed.

Lemma steady_print_exn (s : string) (e : exn) : steady (print_exn s e).
Proof. intros w. reflexivity. Qed.

Lemma steady_get_driver : steady get_driver.
Proof. intros w. reflexivity. Qed.

Lemma steady_int_ (s : string) : steady (int_ s).
Proof. unfold int_. destruct (int s); [apply steady_ret|apply steady_raise]. Qed.

Lemma steady_float_ (s : string) : steady (float_ s).
Proof.
  unfold float_. destruct (float s); [apply steady_ret|apply steady_raise].
Qed.

Lemma steady_open_w (filename : string) : steady (open_w filename).
Proof. intros w. reflexivity. Qed.

Lemma steady_writerow (filename : string) (row : Row) :
  steady (writerow filename row).
Proof.
  intros w. unfold writerow. now destruct (dict_get filename (files w)).
Qed.

Create HintDb steady.
#[local] Hint Resolve steady_ret steady_raise steady_session steady_show
  steady_record steady_print steady_print_exn steady_get_driver
  steady_int_ steady_float_ steady_open_w steady_writerow : steady.

Ltac steadying :=
  repeat first
    [ progress auto with steady
    | apply steady_bind; [|intro]
    | apply steady_try_except; [|intro]
    | match goal with
      | |- steady (match ?x with _ => _ end) => destruct x
      | |- steady (if ?x then _ else _) => destruct x
      | |- steady (fun w => _ (web w _) w) =>
          let w := fresh "w" in intro w; cbv beta
      end ].

Lemma steady_get (d : option ref) (url : string) : steady (get d url).
Proof. unfold get. steadying. apply steady_show. Qed.

Lemma steady_click (d : option ref) (el : WebElement) : steady (click d el).
Proof. unfold click. steadying. Qed.

Lemma steady_find_elements (d : option ref) (loc : By) :
  steady (find_elements d loc).
Proof. unfold find_elements. steadying. Qed.

Lemma steady_find_elements_in (d : option ref) (el : WebElement) (loc : By) :
  steady (find_elements_in d el loc).
Proof. unfold find_elements_in. steadying. Qed.

#[local] Hint Resolve steady_get steady_click steady_find_elements
  steady_find_elements_in : steady.

Lemma steady_close_cookie_banner : steady close_cookie_banner.
Proof.
  unfold close_cookie_banner, WebDriverWait_until, find_element,
    find_element_in, execute_script_click.
  steadying.
Qed.

#[local] Hint Resolve steady_close_cookie_banner : steady.

Lemma steady_for_buttons (d : option ref) (buttons : list WebElement) :
  forall prices, steady (for_buttons d buttons prices).
Proof.
  induction buttons as [|b rest IH]; intros prices; simpl;
    unfold visit_button, get_property_disabled, get_property_value,
      find_element, text;
    steadying.
Qed.

#[local] Hint Resolve steady_for_buttons : steady.

Lemma steady_parse_single_product (card : Card) :
  steady (parse_single_product card).
Proof.
  unfold parse_single_product, parse_hdd_block_prices, count_reviews,
    find_element.
  steadying.
Qed.

#[local] Hint Resolve steady_parse_single_product : steady.

Lemma steady_parse_each (cards : list Card) : steady (parse_each cards).
Proof. induction cards as [|c cs IH]; simpl; steadying. Qed.

#[local] Hint Resolve steady_parse_each : steady.

Lemma steady_scrape_loop (fuel : nat) (d : option ref) :
  forall products, steady (scrape_loop fuel d products).
Proof.
  induction fuel as [|fuel IH]; intros products; simpl.
  - intros w. reflexivity.
  - unfold get_single_page_products, page_source, sleep. steadying.
Qed.

#[local] Hint Resolve steady_scrape_loop : steady.

Lemma steady_scrape_page (fuel : nat) (url page_name : string) :
  steady (scrape_page fuel url page_name).
Proof. unfold scrape_page, sleep. steadying. Qed.

Lemma steady_writerows (filename : string) (rows : list Row) :
  steady (writerows filename rows).
Proof. induction rows as [|row rows IH]; simpl; steadying. Qed.

#[local] Hint Resolve steady_scrape_page steady_writerows : steady.


(** X3: a traversal never writes a file, never installs another session
    handle and never creates or drops a session, however it ends. *)
Theorem scrape_page_leaves_files_and_handle
    (fuel : nat) (url page_name : string) (w : World) :
  let w' := snd (scrape_page fuel url page_name w) in
  files w' = files w /\ _driver w' = _driver w /\ web w' = web w
  /\ List.length (heap w') = List.length (heap w).
Proof.
  intros w'. subst w'.
  destruct (framed_scrape_page fuel url page_name w) as (Hd & Hw & Hf).
  repeat split; auto. apply steady_scrape_page.
Qed.

(** *** The entry point *)


(** *** The dismisser, case by case *)

(** X5: with an open session, [close_cookie_banner] returns exactly when
    the page has a banner that either carries no button (the call reports
    it and leaves the page alone) or is displayed (its button is clicked
    by script); in every other case, no banner or a hidden banner with a
    button, it raises [TimeoutException]. *)
Theorem close_cookie_banner_returns_iff (w : World) (r : ref) (p : Page) :
  _driver w = Some r -> showing w r p ->
  (fst (close_cookie_banner w) = Ret tt
   <-> exists bn, banner p = Some bn
                  /\ (has_button bn = false \/ displayed bn = true))
  /\ (fst (close_cookie_banner w) = Ret tt
      \/ fst (close_cookie_banner w) = Exc TimeoutException).
Proof.
  intros Hd Hs. rewrite (close_cookie_banner_cases Hd Hs). cbv zeta.
  destruct (banner p) as [bn|].
  - destruct (has_button bn) eqn:Hb; [destruct (displayed bn) eqn:Hdis|];
      cbn [fst]; (split; [split|]); try (intros; discriminate); auto.
    + intros _. exists bn. auto.
    + intros (bn' & E & [H|H]); injection E as <-; congruence.
    + intros _. exists bn. auto.
  - cbn [fst]. split; [split|]; auto; try discriminate.
    intros (bn & E & _). discriminate.
Qed.

Lemma close_cookie_banner_closes
    (w : World) (r : ref) (p : Page) (bn : Banner) :
  _driver w = Some r -> showing w r p ->
  banner p = Some bn ->
  has_button bn = true -> displayed bn = true -> sticky bn = 0 ->
  exists w1,
    close_cookie_banner w = (Ret tt, w1)
    /\ showing w1 r (set_banner None p)
    /\ stdout w1 = Text "Cookie banner closed successfully." :: stdout w.
Proof.
  intros Hd Hs Hb Hbtn Hdis Hst.
  rewrite (close_cookie_banner_cases Hd Hs). cbv zeta.
  rewrite Hb, Hbtn, Hdis.
  eexists. split; [reflexivity|].
  split; [|reflexivity].
  apply showing_stdout.
  replace (set_banner None p) with (activate ElBannerButton p)
    by (unfold activate; now rewrite Hb, Hst).
  eapply showing_turn. apply showing_emit, showing_emit, showing_emit.
  exact Hs.
Qed.

(** X6: a banner that is displayed and closes at the first script click
    is gone after one call of [close_cookie_banner]: the page shown is the
    same page without banner, the success line is printed, and a second
    call finds no banner and raises [TimeoutException]. *)
Theorem close_cookie_banner_twice
    (w : World) (r : ref) (p : Page) (bn : Banner) :
  _driver w = Some r -> showing w r p ->
  banner p = Some bn ->
  has_button bn = true -> displayed bn = true -> sticky bn = 0 ->
  exists w1,
    close_cookie_banner w = (Ret tt, w1)
    /\ showing w1 r (set_banner None p)
    /\ stdout w1 = Text "Cookie banner closed successfully." :: stdout w
    /\ fst (close_cookie_banner w1) = Exc TimeoutException.
Proof.
  intros Hd Hs Hb Hbtn Hdis Hst.
  destruct (close_cookie_banner_closes Hd Hs Hb Hbtn Hdis Hst)
    as (w1 & Hrun & Hs1 & Hout).
  exists w1. split; [exact Hrun|]. split; [exact Hs1|]. split; [exact Hout|].
  assert (Hd1 : _driver w1 = Some r).
  { pose proof (framed_close_cookie_banner w) as Hf. rewrite Hrun in Hf.
    destruct Hf as (Hf & _). simpl in Hf. congruence. }
  rewrite (close_cookie_banner_cases Hd1 Hs1). reflexivity.
Qed.

(** *** Pricing the variants *)

Lemma try_except_Ret (A : Type) (body : M A) (classes : list exn)
    (handler : exn -> M A) (w w' : World) (a : A) :
  body w = (Ret a, w') -> try_except body classes handler w = (Ret a, w').
Proof. unfold try_except. now intros ->. Qed.

Lemma same_content_refl (p : Page) : same_content p p.
Proof. now repeat split. Qed.

Lemma same_content_trans (p1 p2 p3 : Page) :
  same_content p1 p2 -> same_content p2 p3 -> same_content p1 p3.
Proof.
  unfold same_content. intros (a & b & c & d) (a' & b' & c' & d').
  repeat split; congruence.
Qed.

Lemma same_content_set_price_text (t : option string) (p : Page) :
  same_content p (set_price_text t p).
Proof. now repeat split. Qed.

Lemma same_content_set_banner (bn : option Banner) (p : Page) :
  same_content p (set_banner bn p).
Proof. now repeat split. Qed.

(** The visit of an enabled button on a page that nothing obstructs. *)
Lemma visit_button_clear (r : ref) (b : Button) (acc : dict F)
    (w : World) (p : Page) :
  showing w r p -> obstructed p = false -> btn_disabled b = false ->
  visit_button (Some r) (ElSwatch b) acc w
  = (match btn_price b with
     | Some shown =>
         match float (replace_dollar shown) with
         | Some f => Ret (dict_set (btn_value b) f acc)
         | None => Exc ValueError
         end
     | None => Exc NoSuchElementException
     end,
     turn r (set_price_text (btn_price b) p) (emit (EvClick (ElSwatch b)) w)).
Proof.
  intros Hs Hob Hdis.
  unfold visit_button. unfold bind at 1. cbn [get_property_disabled ret].
  rewrite Hdis. cbn [negb].
  assert (Hclick := click_showing (ElSwatch b) Hs).
  rewrite Hob in Hclick. cbn [under_banner andb activate] in Hclick.
  rewrite Hdis in Hclick.
  erewrite bind_Ret by (apply try_except_Ret; exact Hclick).
  set (p1 := set_price_text (btn_price b) p).
  set (w1 := turn r p1 (emit (EvClick (ElSwatch b)) w)).
  assert (Hs1 : showing w1 r p1).
  { subst w1. eapply showing_turn. apply showing_emit. exact Hs. }
  destruct (btn_price b) as [shown|] eqn:Hp.
  - erewrite bind_Ret
      by (erewrite find_element_showing by exact Hs1; reflexivity).
    erewrite bind_Ret by (eapply text_showing; [exact Hs1|reflexivity]).
    unfold float_. destruct (float (replace_dollar shown)).
    + reflexivity.
    + reflexivity.
  - erewrite bind_Exc
      by (erewrite find_element_showing by exact Hs1; reflexivity).
    reflexivity.
Qed.

(** The loop over the buttons of a block on a page that nothing
    obstructs, when the price of every enabled button can be read. *)
Lemma for_buttons_clear (g : Button -> F) (r : ref) (bs : list Button) :
  forall (acc : dict F) (w : World) (p : Page),
    showing w r p -> obstructed p = false ->
    (forall b, In b (enabled bs) -> price_of b = Some (g b)) ->
    exists w' p',
      for_buttons (Some r) (map ElSwatch bs) acc w
      = (Ret (assign_all (map (entry g) (enabled bs)) acc), w')
      /\ showing w' r p' /\ obstructed p' = false /\ same_content p p'
      /\ log w' = clicks_on (enabled bs) ++ log w.
Proof.
  induction bs as [|b bs IH]; intros acc w p Hs Hob Hg.
  - exists w, p. simpl. repeat split; auto.
  - cbn [map for_buttons]. unfold enabled in *. cbn [filter] in *.
    destruct (btn_disabled b) eqn:Hdis; cbn [negb] in *.
    + unfold visit_button at 1. unfold bind at 1 2.
      cbn [get_property_disabled ret]. rewrite Hdis. cbn [negb ret].
      apply IH; auto.
    + assert (Hv : visit_button (Some r) (ElSwatch b) acc w
                   = (Ret (dict_set (btn_value b) (g b) acc),
                      turn r (set_price_text (btn_price b) p)
                        (emit (EvClick (ElSwatch b)) w))).
      { rewrite (visit_button_clear b acc Hs Hob Hdis).
        specialize (Hg b (or_introl eq_refl)). unfold price_of in Hg.
        destruct (btn_price b) as [shown|]; [|discriminate].
        rewrite Hg. reflexivity. }
      erewrite bind_Ret by exact Hv.
      set (p1 := set_price_text (btn_price b) p).
      set (w1 := turn r p1 (emit (EvClick (ElSwatch b)) w)).
      assert (Hs1 : showing w1 r p1).
      { subst w1. eapply showing_turn. apply showing_emit. exact Hs. }
      destruct (IH (dict_set (btn_value b) (g b) acc) w1 p1 Hs1 Hob)
        as (w' & p' & Hrun & Hs' & Hob' & Hc & Hlog).
      { intros b' Hb'. apply Hg. now right. }
      exists w', p'. split; [exact Hrun|]. split; [exact Hs'|].
      split; [exact Hob'|].
      split.
      * eapply same_content_trans;
          [apply same_content_set_price_text|exact Hc].
      * rewrite Hlog. unfold clicks_on. cbn [map rev].
        rewrite <- app_assoc. reflexivity.
Qed.

(** The commands before the loop, on a detail page whose banner closes at
    the first dismissal. *)
Lemma locate_buttons_clear (r : ref) (link : string) (w : World)
    (p0 : Page) (bn : Banner) (bs : list Button) :
  _driver w = Some r -> showing w r p0 ->
  banner (web w (urljoin BASE_URL link)) = Some bn ->
  has_button bn = true -> displayed bn = true -> sticky bn = 0 ->
  swatches (web w (urljoin BASE_URL link)) = Some bs ->
  exists wl,
    locate_buttons (Some r) link w = (Ret (map ElSwatch bs), wl)
    /\ showing wl r (set_banner None (web w (urljoin BASE_URL link)))
    /\ log wl = [EvScriptClick ElBannerButton;
                 EvWait 10 element_to_be_clickable;
                 EvWait 10 presence_of_element_located;
                 EvGet (urljoin BASE_URL link)] ++ log w.
Proof.
  intros Hd Hs Hb Hbtn Hdis Hst Hsw.
  set (page := web w (urljoin BASE_URL link)) in *.
  unfold locate_buttons.
  erewrite bind_Ret by (eapply get_showing; exact Hs).
  fold page.
  set (w1 := turn r page (emit (EvGet (urljoin BASE_URL link)) w)).
  assert (Hs1 : showing w1 r page).
  { subst w1. eapply showing_turn. apply showing_emit. exact Hs. }
  assert (Hclose := @close_cookie_banner_cases w1 r page Hd Hs1).
  cbv zeta in Hclose. rewrite Hb, Hbtn, Hdis in Hclose.
  match type of Hclose with _ = (_, ?W) => set (w2 := W) in * end.
  assert (Hs2 : showing w2 r (set_banner None page)).
  { subst w2. apply showing_stdout.
    replace (set_banner None page) with (activate ElBannerButton page)
      by (unfold activate; now rewrite Hb, Hst).
    eapply showing_turn. apply showing_emit, showing_emit, showing_emit.
    exact Hs1. }
  erewrite bind_Ret by exact Hclose.
  erewrite bind_Ret.
  2:{ erewrite find_element_showing by exact Hs2.
      unfold locate. cbn [swatches set_banner]. rewrite Hsw. reflexivity. }
  exists w2. split; [|split; [exact Hs2|reflexivity]].
  erewrite find_elements_in_showing by exact Hs2.
  unfold locate. cbn [swatches set_banner]. rewrite Hsw. reflexivity.
Qed.

(** Once the banner is gone, only another covering element obstructs. *)
Lemma obstructed_set_banner_None (p : Page) :
  obstructed (set_banner None p) = overlay p.
Proof.
  unfold obstructed. cbn [set_banner overlay banner]. apply orb_false_r.
Qed.

(** X7: on a detail page that nothing but its banner covers and whose
    banner closes at the first dismissal, when the price shown after the
    activation of each enabled button can be read,
    [parse_hdd_block_prices] returns the mapping obtained by assigning,
    button after button, the price read to the key [value] of the button
    (a later button with the same value replaces the price of the earlier
    one).  Disabled buttons are not activated: the events of the call are
    the load of the page, the three events of the dismissal and one click
    on each enabled button, in page order, and nothing else. *)
Theorem parse_hdd_block_prices_reads_shown_prices
    (g : Button -> F) (card : Card) (link : string) (w : World) (r : ref)
    (p0 : Page) (bn : Banner) (bs : list Button) :
  detail_link card = Some link ->
  _driver w = Some r -> showing w r p0 ->
  overlay (web w (urljoin BASE_URL link)) = false ->
  banner (web w (urljoin BASE_URL link)) = Some bn ->
  has_button bn = true -> displayed bn = true -> sticky bn = 0 ->
  swatches (web w (urljoin BASE_URL link)) = Some bs ->
  (forall b, In b (enabled bs) -> price_of b = Some (g b)) ->
  exists w',
    parse_hdd_block_prices card w
    = (Ret (assign_all (map (entry g) (enabled bs)) []), w')
    /\ log w' = clicks_on (enabled bs)
                ++ [EvScriptClick ElBannerButton;
                    EvWait 10 element_to_be_clickable;
                    EvWait 10 presence_of_element_located;
                    EvGet (urljoin BASE_URL link)]
                ++ log w
    /\ forall b, btn_disabled b = true ->
                 ~ In (EvClick (ElSwatch b)) (clicks_on (enabled bs)).
Proof.
  intros Hl Hd Hs Hov Hb Hbtn Hdis Hst Hsw Hg.
  rewrite (parse_hdd_block_prices_loop card w Hl), Hd.
  destruct (locate_buttons_clear link Hd Hs Hb Hbtn Hdis Hst Hsw)
    as (wl & Hloc & Hsl & Hlogl).
  erewrite bind_Ret by exact Hloc.
  assert (Hob : obstructed (set_banner None (web w (urljoin BASE_URL link)))
                = false)
    by (now rewrite obstructed_set_banner_None).
  destruct (@for_buttons_clear g r bs [] wl _ Hsl Hob Hg)
    as (w' & p' & Hrun & _ & _ & _ & Hlog).
  exists w'. split; [exact Hrun|]. split.
  - rewrite Hlog, Hlogl. reflexivity.
  - intros b Hdb Hin. unfold clicks_on in Hin.
    apply in_rev, in_map_iff in Hin. destruct Hin as (b' & E & Hb').
    injection E as ->. unfold enabled in Hb'. apply filter_In in Hb'.
    destruct Hb' as (_ & Hen). rewrite Hdb in Hen. discriminate.
Qed.

(** X8: on a detail page that nothing but its banner covers and whose
    banner closes at the first dismissal, the first enabled button after
    whose activation the price cannot be read ends the call: with
    [NoSuchElementException] when the page then shows no price element,
    with [ValueError] when the text shown is no number; no mapping is
    returned, the prices read before are lost. *)
Theorem parse_hdd_block_prices_unreadable_price
    (g : Button -> F) (card : Card) (link : string) (w : World) (r : ref)
    (p0 : Page) (bn : Banner) (pre post : list Button) (b : Button) :
  detail_link card = Some link ->
  _driver w = Some r -> showing w r p0 ->
  overlay (web w (urljoin BASE_URL link)) = false ->
  banner (web w (urljoin BASE_URL link)) = Some bn ->
  has_button bn = true -> displayed bn = true -> sticky bn = 0 ->
  swatches (web w (urljoin BASE_URL link)) = Some (pre ++ b :: post) ->
  (forall b', In b' (enabled pre) -> price_of b' = Some (g b')) ->
  btn_disabled b = false -> price_of b = None ->
  fst (parse_hdd_block_prices card w)
  = Exc (match btn_price b with
         | Some _ => ValueError
         | None => NoSuchElementException
         end).
Proof.
  intros Hl Hd Hs Hov Hb Hbtn Hdis Hst Hsw Hg Hen Hnone.
  rewrite (parse_hdd_block_prices_loop card w Hl), Hd.
  destruct (locate_buttons_clear link Hd Hs Hb Hbtn Hdis Hst Hsw)
    as (wl & Hloc & Hsl & _).
  erewrite bind_Ret by exact Hloc.
  rewrite map_app, for_buttons_app.
  assert (Hob : obstructed (set_banner None (web w (urljoin BASE_URL link)))
                = false)
    by (now rewrite obstructed_set_banner_None).
  destruct (@for_buttons_clear g r pre [] wl _ Hsl Hob Hg)
    as (w1 & p1 & Hrun & Hs1 & Hob1 & _).
  erewrite bind_Ret by exact Hrun.
  cbn [map for_buttons]. unfold bind at 1.
  rewrite (visit_button_clear b _ Hs1 Hob1 Hen).
  unfold price_of in Hnone.
  destruct (btn_price b) as [shown|]; [rewrite Hnone|]; reflexivity.
Qed.





(** *** Where a priced card leaves the session *)

Lemma try_except_Ret_inv (A : Type) (body : M A) (classes : list exn)
    (handler : exn -> M A) (w w' : World) (a : A) :
  try_except body classes handler w = (Ret a, w') ->
  body w = (Ret a, w')
  \/ exists e w1, body w = (Exc e, w1) /\ handler e w1 = (Ret a, w').
Proof.
  unfold try_except. destruct (body w) as [[x|e|] w1]; intros H.
  - now left.
  - right. destruct (existsb _ classes); [|discriminate]. now exists e, w1.
  - discriminate.
Qed.

Lemma find_element_world (d : option ref) (loc : By) (w : World) :
  snd (find_element d loc w) = w.
Proof.
  unfold find_element, find_elements, bind, session.
  destruct d as [r|]; [|reflexivity].
  destruct (nth_error (heap w) r) as [b|]; [|reflexivity].
  destruct (closed b); [reflexivity|].
  now destruct (locate (current b) None loc).
Qed.

Lemma find_elements_in_world (d : option ref) (el : WebElement) (loc : By)
    (w : World) :
  snd (find_elements_in d el loc w) = w.
Proof.
  unfold find_elements_in, bind, session.
  destruct d as [r|]; [|reflexivity].
  destruct (nth_error (heap w) r) as [b|]; [|reflexivity].
  now destruct (closed b).
Qed.

Lemma text_world (d : option ref) (el : WebElement) (w : World) :
  snd (text d el w) = w.
Proof.
  unfold text, bind, session.
  destruct d as [r|]; [|reflexivity].
  destruct (nth_error (heap w) r) as [b|]; [|reflexivity].
  destruct (closed b); [reflexivity|].
  destruct el; try reflexivity.
  now destruct (price_text (current b)).
Qed.

Lemma float__world (s : string) (w : World) : snd (float_ s w) = w.
Proof. unfold float_. now destruct (float s). Qed.

(** After the click, reading the price leaves the world alone. *)
Lemma record_price_world (d : option ref) (button : WebElement)
    (prices : dict F) (w : World) :
  snd (record_price d button prices w) = w.
Proof.
  unfold record_price, bind.
  pose proof (find_element_world d CLASS_NAME_price w) as H1.
  destruct (find_element d CLASS_NAME_price w) as [[el|e|] w1];
    simpl in H1; subst w1; try reflexivity.
  pose proof (text_world d el w) as H2.
  destruct (text d el w) as [[t|e|] w2]; simpl in H2; subst w2;
    try reflexivity.
  pose proof (float__world (replace_dollar t) w) as H3.
  destruct (float_ (replace_dollar t) w) as [[f|e|] w3]; simpl in H3;
    subst w3; try reflexivity.
  now destruct button.
Qed.

Lemma same_content_activate_swatch (b : Button) (p : Page) :
  same_content p (activate (ElSwatch b) p).
Proof.
  unfold activate. destruct (btn_disabled b).
  - apply same_content_refl.
  - apply same_content_set_price_text.
Qed.

Lemma click_Ret (r : ref) (el : WebElement) (w w' : World) (p : Page) :
  showing w r p -> click (Some r) el w = (Ret tt, w') ->
  showing w' r (activate el p).
Proof.
  intros Hs H. rewrite (click_showing el Hs) in H.
  destruct (under_banner el && obstructed p); [discriminate|].
  injection H as <-. eapply showing_turn. apply showing_emit. exact Hs.
Qed.

Lemma close_cookie_banner_Ret_content (w w' : World) (r : ref) (p : Page) :
  _driver w = Some r -> showing w r p ->
  close_cookie_banner w = (Ret tt, w') ->
  exists p', showing w' r p' /\ same_content p p'.
Proof.
  intros Hd Hs H. rewrite (close_cookie_banner_cases Hd Hs) in H.
  cbv zeta in H.
  destruct (banner p) as [bn|] eqn:Hb; [|discriminate].
  destruct (has_button bn).
  - destruct (displayed bn); [|discriminate].
    injection H as <-. exists (activate ElBannerButton p). split.
    + apply showing_stdout. eapply showing_turn.
      apply showing_emit, showing_emit, showing_emit. exact Hs.
    + unfold activate. rewrite Hb.
      destruct (sticky bn); apply same_content_set_banner.
  - injection H as <-. exists p. split; [|apply same_content_refl].
    apply showing_stdout, showing_emit. exact Hs.
Qed.

Lemma driver_kept (A : Type) (m : M A) (w : World) (r : ref) :
  framed m -> _driver w = Some r -> _driver (snd (m w)) = Some r.
Proof. intros Hf Hd. destruct (Hf w) as (H & _). congruence. Qed.

Lemma visit_button_Ret_content (r : ref) (b : Button) (acc acc' : dict F)
    (w w' : World) (p : Page) :
  _driver w = Some r -> showing w r p ->
  visit_button (Some r) (ElSwatch b) acc w = (Ret acc', w') ->
  exists p', showing w' r p' /\ same_content p p'.
Proof.
  intros Hd Hs H.
  unfold visit_button in H. unfold bind at 1 in H.
  cbn [get_property_disabled ret] in H.
  destruct (btn_disabled b); cbn [negb] in H.
  - injection H as _ <-. exists p. split; [exact Hs|apply same_content_refl].
  - fold (record_price (Some r) (ElSwatch b) acc) in H.
    apply bind_Ret_inv in H. destruct H as ([] & w1 & Htry & Hrec).
    pose proof (record_price_world (Some r) (ElSwatch b) acc w1) as Hw.
    rewrite Hrec in Hw. simpl in Hw. subst w'.
    apply try_except_Ret_inv in Htry.
    destruct Htry as [Hclick|(e & wa & Hclick & Hretry)].
    + exists (activate (ElSwatch b) p). split.
      * eapply click_Ret; eassumption.
      * apply same_content_activate_swatch.
    + apply bind_Ret_inv in Hretry. destruct Hretry as ([] & wb & Hclose & Hclick2).
      assert (Hsa : showing wa r p).
      { rewrite (click_showing (ElSwatch b) Hs) in Hclick.
        destruct (under_banner (ElSwatch b) && obstructed p);
          [|discriminate].
        injection Hclick as _ <-. apply showing_emit. exact Hs. }
      assert (Hda : _driver wa = Some r).
      { pose proof (@driver_kept _ _ w r (framed_click (Some r) (ElSwatch b)) Hd)
          as Hk.
        now rewrite Hclick in Hk. }
      destruct (close_cookie_banner_Ret_content Hda Hsa Hclose)
        as (pb & Hsb & Hcb).
      exists (activate (ElSwatch b) pb). split.
      * eapply click_Ret; eassumption.
      * eapply same_content_trans; [exact Hcb|].
        apply same_content_activate_swatch.
Qed.

Lemma for_buttons_Ret_content (r : ref) (bs : list Button) :
  forall (acc prices : dict F) (w w' : World) (p : Page),
    _driver w = Some r -> showing w r p ->
    for_buttons (Some r) (map ElSwatch bs) acc w = (Ret prices, w') ->
    exists p', showing w' r p' /\ same_content p p'.
Proof.
  induction bs as [|b bs IH]; intros acc prices w w' p Hd Hs H; simpl in H.
  - injection H as _ <-. exists p. split; [exact Hs|apply same_content_refl].
  - apply bind_Ret_inv in H. destruct H as (acc1 & w1 & Hv & H).
    assert (Hd1 : _driver w1 = Some r).
    { pose proof (@driver_kept _ _ w r
                    (framed_visit_button (Some r) (ElSwatch b) acc) Hd) as Hk.
      now rewrite Hv in Hk. }
    eapply visit_button_Ret_content in Hv; [|exact Hd|exact Hs].
    destruct Hv as (p1 & Hs1 & Hc1).
    destruct (IH _ _ _ _ _ Hd1 Hs1 H) as (p' & Hs' & Hc').
    exists p'. split; [exact Hs'|].
    eapply same_content_trans; eassumption.
Qed.

Lemma parse_hdd_block_prices_Ret_content
    (card : Card) (link : string) (w w' : World) (prices : dict F) :
  detail_link card = Some link ->
  parse_hdd_block_prices card w = (Ret prices, w') ->
  exists r p',
    _driver w' = Some r /\ showing w' r p'
    /\ same_content (web w (urljoin BASE_URL link)) p'
    /\ web w' = web w.
Proof.
  intros Hl H.
  pose proof (framed_parse_hdd_block_prices card w) as Hf.
  rewrite H in Hf. destruct Hf as (Hfd & Hfw & _). simpl in Hfd, Hfw.
  rewrite (parse_hdd_block_prices_loop card w Hl) in H.
  apply bind_Ret_inv in H. destruct H as (buttons & wl & Hloc & Hloop).
  unfold locate_buttons in Hloc.
  apply bind_Ret_inv in Hloc. destruct Hloc as ([] & w1 & Hget & Hloc).
  apply get_Ret_inv in Hget. destruct Hget as (r & p & Hr & Hs & ->).
  rewrite Hr in *.
  set (page := web w (urljoin BASE_URL link)) in *.
  apply bind_Ret_inv in Hloc. destruct Hloc as ([] & w2 & Hclose & Hloc).
  assert (Hs1 : showing (turn r page (emit (EvGet (urljoin BASE_URL link)) w))
                  r page).
  { eapply showing_turn. apply showing_emit. exact Hs. }
  assert (Hd2 : _driver w2 = Some r).
  { pose proof (@driver_kept _ _
                  (turn r page (emit (EvGet (urljoin BASE_URL link)) w)) r
                  framed_close_cookie_banner Hr) as Hk.
    now rewrite Hclose in Hk. }
  eapply close_cookie_banner_Ret_content in Hclose; [|exact Hr|exact Hs1].
  destruct Hclose as (p2 & Hs2 & Hc2).
  apply bind_Ret_inv in Hloc. destruct Hloc as (el & w3 & Hfind & Hloc).
  pose proof (find_element_world (Some r) CLASS_NAME_swatches w2) as Hw3.
  rewrite Hfind in Hw3. simpl in Hw3. subst w3.
  pose proof (find_elements_in_world (Some r) el TAG_NAME_button w2) as Hw4.
  rewrite Hloc in Hw4. simpl in Hw4. subst wl.
  rewrite (find_element_showing _ Hs2) in Hfind.
  unfold locate in Hfind.
  destruct (swatches p2) as [bs|] eqn:Hsw; [|discriminate].
  injection Hfind as <-.
  rewrite (find_elements_in_showing _ _ Hs2) in Hloc.
  unfold locate in Hloc. rewrite Hsw in Hloc. injection Hloc as <-.
  eapply for_buttons_Ret_content in Hloop; [|exact Hd2|exact Hs2].
  destruct Hloop as (p' & Hs' & Hc').
  exists r, p'. split; [congruence|]. split; [exact Hs'|].
  split; [eapply same_content_trans; eassumption|exact Hfw].
Qed.

(** X9: a call of [parse_hdd_block_prices] that returns for a card with a
    link leaves the session on the detail page of that card (with, at
    most, its banner and the price shown changed): the call loads the
    address [urljoin(BASE_URL, href)] and does not go back to the page the
    card came from. *)
Theorem parse_hdd_block_prices_stays_on_detail_page
    (card : Card) (link : string) (w w' : World) (prices : dict F) :
  detail_link card = Some link ->
  parse_hdd_block_prices card w = (Ret prices, w') ->
  exists r p',
    _driver w' = Some r /\ showing w' r p'
    /\ same_content (web w (urljoin BASE_URL link)) p'
    /\ web w' = web w.
Proof. apply parse_hdd_block_prices_Ret_content. Qed.

(** *** Reading the cards of a page *)

Lemma parse_single_product_Ret_page (c : Card) (w w' : World) (p : Product)
    (r : ref) (p0 : Page) :
  parse_single_product c w = (Ret p, w') ->
  _driver w = Some r -> showing w r p0 ->
  exists p1,
    showing w' r p1 /\ _driver w' = Some r /\ web w' = web w
    /\ match detail_link c with
       | Some link => same_content (web w (urljoin BASE_URL link)) p1
       | None => p1 = p0
       end.
Proof.
  intros H Hd Hs.
  destruct (parse_single_product_info _ _ H) as (h & Hh & _).
  destruct (detail_link c) as [link|] eqn:Hl.
  - edestruct parse_hdd_block_prices_Ret_content
      as (r' & p1 & Hd' & Hs' & Hc & Hw); [exact Hl|exact Hh|].
    pose proof (@driver_kept _ _ w r (framed_parse_hdd_block_prices c) Hd) as Hk.
    rewrite Hh in Hk. simpl in Hk.
    assert (r' = r) by congruence. subst r'.
    exists p1. auto.
  - unfold parse_hdd_block_prices in Hh. rewrite Hl in Hh.
    injection Hh as _ <-. exists p0. auto.
Qed.

Lemma parse_each_Ret_page (cs : list Card) :
  forall (w w' : World) (ps : list Product) (r : ref) (p0 : Page),
    parse_each cs w = (Ret ps, w') ->
    _driver w = Some r -> showing w r p0 ->
    exists p1,
      showing w' r p1 /\ _driver w' = Some r /\ web w' = web w
      /\ match last_link cs with
         | Some link => same_content (web w (urljoin BASE_URL link)) p1
         | None => p1 = p0
         end.
Proof.
  induction cs as [|c cs IH]; intros w w' ps r p0 H Hd Hs; simpl in H.
  - injection H as _ <-. exists p0. simpl. auto.
  - apply bind_Ret_inv in H. destruct H as (p & w1 & Hc & H).
    apply bind_Ret_inv in H. destruct H as (ps' & w2 & Hcs & H).
    injection H as _ <-.
    edestruct parse_single_product_Ret_page
      as (p1 & Hs1 & Hd1 & Hw1 & Hp1); [exact Hc|exact Hd|exact Hs|].
    destruct (IH _ _ _ _ _ Hcs Hd1 Hs1) as (p2 & Hs2 & Hd2 & Hw2 & Hp2).
    exists p2. split; [exact Hs2|]. split; [exact Hd2|].
    split; [congruence|].
    cbn [last_link]. destruct (last_link cs) as [link|].
    + now rewrite <- Hw1.
    + subst p2. exact Hp1.
Qed.

Lemma parse_each_first_failure (pre : list Card) :
  forall (c : Card) (post : list Card) (w w2 w3 : World)
         (ps : list Product) (e : exn),
    parse_each pre w = (Ret ps, w2) ->
    parse_single_product c w2 = (Exc e, w3) ->
    parse_each (pre ++ c :: post) w = (Exc e, w3).
Proof.
  induction pre as [|a pre IH]; intros c post w w2 w3 ps e Hpre Hc; simpl in *.
  - injection Hpre as _ <-. now erewrite bind_Exc by exact Hc.
  - apply bind_Ret_inv in Hpre. destruct Hpre as (p & w1 & Ha & Hpre).
    apply bind_Ret_inv in Hpre. destruct Hpre as (ps' & w2' & Hpre & Hret).
    injection Hret as _ <-.
    erewrite bind_Ret by exact Ha.
    erewrite bind_Exc; [reflexivity|].
    eapply IH; eassumption.
Qed.

Lemma parse_each_length (cs : list Card) :
  forall (w w' : World) (ps : list Product),
    parse_each cs w = (Ret ps, w') -> List.length ps = List.length cs.
Proof.
  induction cs as [|c cs IH]; intros w w' ps H; simpl in H.
  - now injection H as <-.
  - apply bind_Ret_inv in H. destruct H as (p & wa & _ & H).
    apply bind_Ret_inv in H. destruct H as (ps' & wb & Hcs & H).
    injection H as <- _. simpl. f_equal. eapply IH. exact Hcs.
Qed.

(** The world in which the first pass of [scrape_page] begins. *)
Lemma scrape_page_first_pass (fuel : nat) (url page_name : string)
    (w : World) (r : ref) (p0 : Page) :
  _driver w = Some r -> showing w r p0 ->
  let w1 := emit (EvSleep 2) (turn r (web w url) (emit (EvGet url) w)) in
  showing w1 r (web w url)
  /\ scrape_page (S fuel) url page_name w
     = (found <- get_single_page_products (web w url) ;;
        more_button <- find_elements (Some r) CLASS_NAME_btn_more ;;
        match more_button with
        | first :: _ =>
            click (Some r) first ;; sleep 2 ;;
            scrape_loop fuel (Some r) ([] ++ found)
        | [] => ret ([] ++ found)
        end) w1.
Proof.
  intros Hd Hs w1.
  assert (Hs1 : showing w1 r (web w url)).
  { subst w1. apply showing_emit. eapply showing_turn.
    apply showing_emit. exact Hs. }
  split; [exact Hs1|].
  unfold scrape_page. unfold bind at 1. unfold get_driver. rewrite Hd.
  erewrite bind_Ret by (eapply get_showing; exact Hs).
  unfold sleep at 1. unfold bind at 1, record at 1.
  fold w1. cbn [scrape_loop].
  erewrite bind_Ret by (apply page_source_showing; exact Hs1).
  reflexivity.
Qed.

(** X10: when the last card of a listing that carries a link leads to a
    detail page without reveal control, [scrape_page] ends after its first
    pass: reading the cards has left the session on that detail page, so
    the reveal control of the listing, if it has one, is looked for on the
    wrong page and never clicked.  The result is what the first pass
    read. *)
Theorem scrape_page_stops_on_detail_page
    (fuel : nat) (url page_name link : string) (w w2 : World) (r : ref)
    (p0 : Page) (ps : list Product) :
  _driver w = Some r -> showing w r p0 ->
  last_link (thumbnails (web w url)) = Some link ->
  reveal (web w (urljoin BASE_URL link)) = [] ->
  get_single_page_products (web w url)
    (emit (EvSleep 2) (turn r (web w url) (emit (EvGet url) w)))
  = (Ret ps, w2) ->
  scrape_page (S fuel) url page_name w = (Ret ps, w2)
  /\ List.length ps = List.length (thumbnails (web w url)).
Proof.
  intros Hd Hs Hlast Hrev Hpass.
  destruct (scrape_page_first_pass fuel url page_name Hd Hs) as (Hs1 & ->).
  set (w1 := emit (EvSleep 2) (turn r (web w url) (emit (EvGet url) w))) in *.
  erewrite bind_Ret by exact Hpass.
  unfold get_single_page_products in Hpass.
  edestruct parse_each_Ret_page as (p1 & Hs2 & _ & _ & Hp1);
    [exact Hpass|exact Hd|exact Hs1|].
  rewrite Hlast in Hp1. change (web w1) with (web w) in Hp1.
  destruct Hp1 as (_ & Hr1 & _).
  erewrite bind_Ret by (apply find_elements_showing; exact Hs2).
  unfold locate. rewrite Hr1, Hrev. split; [reflexivity|].
  eapply parse_each_length. exact Hpass.
Qed.

(** X11: the first card of a listing that cannot be read ends the
    traversal: [scrape_page] raises the exception of that card in the state
    that card left; the cards after it are not read, and the records of
    the cards before it are not returned. *)
Theorem scrape_page_first_unreadable_card
    (fuel : nat) (url page_name : string) (w w2 w3 : World) (r : ref)
    (p0 : Page) (pre post : list Card) (c : Card) (ps : list Product)
    (e : exn) :
  _driver w = Some r -> showing w r p0 ->
  thumbnails (web w url) = pre ++ c :: post ->
  parse_each pre
    (emit (EvSleep 2) (turn r (web w url) (emit (EvGet url) w)))
  = (Ret ps, w2) ->
  parse_single_product c w2 = (Exc e, w3) ->
  scrape_page (S fuel) url page_name w = (Exc e, w3).
Proof.
  intros Hd Hs Hcards Hpre Hc.
  destruct (scrape_page_first_pass fuel url page_name Hd Hs) as (_ & ->).
  erewrite bind_Exc; [reflexivity|].
  unfold get_single_page_products. rewrite Hcards.
  eapply parse_each_first_failure; eassumption.
Qed.

(** X12: [scrape_page] does not call the dismisser.  On a listing with a
    reveal control under a displayed banner, whose cards carry no link,
    the click on the control is intercepted and the traversal raises
    [ElementClickInterceptedException]; the log holds the page load, the
    pause and that one click, and no wait for the banner. *)
Theorem scrape_page_does_not_dismiss
    (ext : Card -> Product) (fuel : nat) (url page_name : string)
    (w : World) (r : ref) (p0 : Page) :
  _driver w = Some r -> showing w r p0 ->
  obstructed (web w url) = true ->
  reveal (web w url) <> [] ->
  (forall c, In c (thumbnails (web w url)) ->
             forall w', parse_single_product c w' = (Ret (ext c), w')) ->
  exists w',
    scrape_page (S fuel) url page_name w
    = (Exc ElementClickInterceptedException, w')
    /\ log w' = [EvClick ElBtnMore; EvSleep 2; EvGet url] ++ log w.
Proof.
  intros Hd Hs Hob Hrev Hext.
  destruct (scrape_page_first_pass fuel url page_name Hd Hs) as (Hs1 & ->).
  set (w1 := emit (EvSleep 2) (turn r (web w url) (emit (EvGet url) w))) in *.
  unfold get_single_page_products.
  erewrite bind_Ret by (apply parse_each_pure; exact Hext).
  erewrite bind_Ret by (apply find_elements_showing; exact Hs1).
  unfold locate.
  destruct (reveal (web w url)) as [|b rest]; [contradiction|].
  assert (Hclick := click_showing ElBtnMore Hs1).
  rewrite Hob in Hclick. cbn [under_banner andb] in Hclick.
  erewrite bind_Exc by exact Hclick.
  eexists. split; reflexivity.
Qed.

(** *** The records *)

Lemma parse_single_product_Ret_fields (c : Card) (w w' : World) (p : Product) :
  parse_single_product c w = (Ret p, w') -> extracted c p.
Proof.
  unfold parse_single_product, bind at 1.
  destruct (parse_hdd_block_prices c w) as [[h|e|] w1]; try discriminate.
  unfold extracted, bind, count_reviews, int_, float_, ret, raise.
  destruct (reviews_elem c) as [t|];
    [destruct (split t) as [|tok rest] eqn:Hsplit; [discriminate|];
     destruct (int tok) as [n|] eqn:Hn; [|discriminate]|];
    (destruct (title_elem c) as [te|]; [|discriminate];
     destruct (title_attr te) as [ti|] eqn:Hti; [|discriminate];
     destruct (description_elem c) as [d|]; [|discriminate];
     destruct (price_elem c) as [pt|]; [|discriminate];
     destruct (float (replace_dollar pt)) as [f|] eqn:Hf; [|discriminate];
     destruct (rating_elem c) as [rt|]; [|discriminate];
     destruct (int rt) as [rv|] eqn:Hr; [|discriminate];
     intros H; injection H as <- _; cbn [title description price rating
                                          num_of_reviews];
     repeat split; eauto).
Qed.

(** X13: when [get_single_page_products] returns, it returns one record
    per card of the page, in the order of the cards, and each record holds
    what its card shows: the [title] attribute, the description text, the
    price text without [$] read as a number, the rating attribute and the
    first token of the review text read as integers (0 reviews when the
    element is missing). *)
Theorem get_single_page_products_in_page_order
    (page_soup : Page) (w w' : World) (ps : list Product) :
  get_single_page_products page_soup w = (Ret ps, w') ->
  Forall2 extracted (thumbnails page_soup) ps.
Proof.
  unfold get_single_page_products.
  revert w w' ps. induction (thumbnails page_soup) as [|c cs IH];
    intros w w' ps H; simpl in H.
  - injection H as <- _. constructor.
  - apply bind_Ret_inv in H. destruct H as (p & w1 & Hc & H).
    apply bind_Ret_inv in H. destruct H as (ps' & w2 & Hcs & H).
    injection H as <- _. constructor.
    + eapply parse_single_product_Ret_fields. exact Hc.
    + eapply IH. exact Hcs.
Qed.

Ltac settle_outcome :=
  eexists; split; [reflexivity|first [reflexivity|simpl; tauto]].

(** X14: once the variant prices of a card are known,
    [parse_single_product] builds the record exactly when the card is well
    formed (title attribute, description, price and rating are there and
    convert, and the review count, if there, starts with an integer);
    otherwise it raises one of [IndexError], [ValueError], [TypeError],
    [KeyError], [AttributeError].  In both cases the world is the one the
    pricing left. *)
Theorem parse_single_product_needs_well_formed_card
    (c : Card) (w w1 : World) (h : dict F) :
  parse_hdd_block_prices c w = (Ret h, w1) ->
  if well_formed c
  then exists p,
         parse_single_product c w = (Ret p, w1)
         /\ additional_info p = [("hdd_prices", h)]
  else exists e,
         parse_single_product c w = (Exc e, w1)
         /\ In e [IndexError; ValueError; TypeError; KeyError; AttributeError].
Proof.
  intros Hh. unfold parse_single_product, bind. rewrite Hh.
  unfold well_formed, reviews_readable, count_reviews, int_, float_,
    ret, raise.
  destruct (reviews_elem c) as [t|];
    [destruct (split t) as [|tok rest]; [|destruct (int tok) as [n|]]|].
  all: cbn [andb]; try solve [settle_outcome].
  all: destruct (title_elem c) as [te|];
    [destruct (title_attr te) as [ti|]|].
  all: cbn [andb]; try solve [settle_outcome].
  all: destruct (description_elem c) as [d|].
  all: cbn [andb]; try solve [settle_outcome].
  all: destruct (price_elem c) as [pt|];
    [destruct (float (replace_dollar pt)) as [f|]|].
  all: cbn [andb]; try solve [settle_outcome].
  all: destruct (rating_elem c) as [rt|];
    [destruct (int rt) as [rv|]|].
  all: cbn [andb]; settle_outcome.
Qed.

(** *** The files of a complete run *)

Lemma for_pages_headers (fuel : nat) (pages : dict string) :
  forall w w',
    for_pages fuel pages w = (Ret tt, w') ->
    (forall n u, In (n, u) pages ->
                 exists rows,
                   dict_get (n ++ ".csv")%string (files w')
                   = Some (header :: rows))
    /\ (forall k rows,
           dict_get k (files w) = Some (header :: rows) ->
           exists rows', dict_get k (files w') = Some (header :: rows')).
Proof.
  induction pages as [|[n u] pages IH]; intros w w' H; simpl in H.
  - injection H as <-. split; [intros ? ? []|eauto].
  - apply bind_Ret_inv in H. destruct H as (ps & w1 & Hs & H).
    apply bind_Ret_inv in H. destruct H as ([] & w2 & Hw & H).
    rewrite write_products_to_csv_result in Hw. injection Hw as <-.
    pose proof (framed_scrape_page fuel u n w) as Hf.
    rewrite Hs in Hf. destruct Hf as (_ & _ & Hf). simpl in Hf.
    destruct (IH _ _ H) as [IH1 IH2]. split.
    + intros n' u' [E|Hin].
      * injection E as <- <-. eapply IH2. cbn [files set_files].
        apply dict_get_set_eq.
      * eauto.
    + intros k rows Hk.
      destruct (string_dec (n ++ ".csv") k) as [<-|Hne].
      * eapply IH2. cbn [files set_files]. apply dict_get_set_eq.
      * eapply IH2. cbn [files set_files].
        rewrite dict_get_set_neq by exact Hne. rewrite Hf. exact Hk.
Qed.

(** X15: when [get_all_products] returns, each of the six sections has
    its file [<name>.csv], and each file begins with the header row. *)
Theorem get_all_products_writes_every_section
    (fuel : nat) (w w' : World) :
  get_all_products fuel w = (Ret tt, w') ->
  forall page_name,
    In page_name ["home"; "computers"; "laptops"; "tablets"; "phones"; "touch"] ->
    exists rows,
      dict_get (page_name ++ ".csv")%string (files w') = Some (header :: rows).
Proof.
  intros H page_name Hin.
  destruct (for_pages_headers _ _ _ H) as [H1 _].
  change ["home"; "computers"; "laptops"; "tablets"; "phones"; "touch"]
    with (map fst PRODUCT_PAGES) in Hin.
  apply in_map_iff in Hin. destruct Hin as ([n u] & <- & Hin).
  eapply H1. exact Hin.
Qed.

End Parse.

Arguments Exc {A} e.
Arguments Diverge {A}.
Arguments CStr {F} s.
Arguments CInt {F} z.
Arguments initial F the_web : clear implicits.
Arguments ret {F A} a _.
Arguments raise {F A} e _.
Arguments get_driver {F} _.
Arguments close_cookie_banner {F} _.
Arguments Chrome {F} _.

Notation "x <- c1 ;; c2" := (bind c1 (fun x => c2))
  (at level 61, c1 at next level, right associativity).
Notation "c1 ;; c2" := (bind c1 (fun _ => c2))
  (at level 61, right associativity).
Arguments started F the_web : clear implicits.
Arguments header {F}.

(** ** The theorems at concrete pages *)

Import Run.

(** C1 at a listing with one card, one click, one card per click: three
    records, the first card twice. *)
Lemma scrape_page_rereads_every_pass_witness :
  exists products w',
    scrape_page cents join 2 "https://webscraper.io/more" "home"
      (started Z (serving "https://webscraper.io/more" listing))
    = (Ret products, w')
    /\ products = map (read_card cents join 0%Z) [card_a; card_a; card_b]
    /\ List.length products = 3
    /\ ~ NoDup products.
Proof.
  destruct (@scrape_page_rereads_every_pass Z cents join
              (read_card cents join 0%Z) 2
              "https://webscraper.io/more" "home"
              (started Z (serving "https://webscraper.io/more" listing))
              0 blank_page 1)
    as (products & w' & Hrun & Hp & _ & Hlen & Hdup).
  - reflexivity.
  - reflexivity.
  - reflexivity.
  - repeat constructor.
  - intros c Hc w'. vm_compute in Hc.
    destruct Hc as [<-|[<-|[]]]; reflexivity.
  - simpl. lia.
  - exists products, w'. split; [exact Hrun|]. split; [exact Hp|]. split.
    + rewrite Hp. reflexivity.
    + apply Hdup; vm_compute; lia.
Defined.

(** C2 on that site: the run ends with the [TypeError] of the third
    section, in the state that traversal left; the files are those written
    before it, which include the files of the first two sections. *)
Lemma failing_section_aborts_run_witness :
  let w := started Z (serving laptops_url broken_listing) in
  let pre := firstn 2 (PRODUCT_PAGES join) in
  let w1 := snd (for_pages cents join 1 pre w) in
  let w2 := snd (scrape_page cents join 1 laptops_url "laptops" w1) in
  get_all_products cents join 1 w = (Exc TypeError, w2)
  /\ files w2 = files w1
  /\ (forall n u, In (n, u) pre ->
                  dict_get (n ++ ".csv")%string (files w2) <> None).
Proof.
  intros w pre w1 w2.
  apply (@failing_section_aborts_run Z cents join 1 w w1 w2 pre
           (skipn 3 (PRODUCT_PAGES join)) "laptops" laptops_url TypeError).
  - reflexivity.
  - vm_compute. reflexivity.
  - vm_compute. reflexivity.
Defined.

(** The files that run leaves: [home.csv] and [computers.csv], nothing
    for [laptops] or any later section. *)
Example files_after_failing_section :
  files (snd (get_all_products cents join 1
                (started Z (serving laptops_url broken_listing))))
  = [("home.csv", [header]); ("computers.csv", [header])].
Proof. vm_compute. reflexivity. Qed.

(** C2, refuted as worded: on a site whose first section cannot be read,
    no later section gets its file. *)
Lemma sections_isolated_fails : ~ sections_isolated cents join.
Proof.
  intros H.
  set (home_url := "https://webscraper.io/test-sites/e-commerce/more/").
  set (w := started Z (serving home_url broken_listing)).
  apply (H 1 w [] "home" home_url (skipn 1 (PRODUCT_PAGES join)) w TypeError
           (snd (scrape_page cents join 1 home_url "home" w))
           eq_refl eq_refl eq_refl
           "computers"
           "https://webscraper.io/test-sites/e-commerce/static/computers/").
  - vm_compute. left. reflexivity.
  - vm_compute. reflexivity.
Qed.

(** C3 on a page without banner. *)
Lemma close_cookie_banner_absent_raises_witness :
  close_cookie_banner (started Z (fun _ => blank_page))
  = (Exc TimeoutException,
     emit (EvWait 10 presence_of_element_located)
       (started Z (fun _ => blank_page))).
Proof.
  apply (@close_cookie_banner_absent_raises Z
           (started Z (fun _ => blank_page)) 0 blank_page);
    reflexivity.
Defined.

(** The same defect seen from [parse_hdd_block_prices]: a detail page
    with a variant block and no banner yields no prices, the dismisser
    called after the page load raises. *)
Example absent_banner_ends_the_product :
  fst (parse_hdd_block_prices cents join card_linked
         (started Z (serving detail_url
                       (detail_page None (Some three_buttons)))))
  = Exc TimeoutException.
Proof. reflexivity. Qed.

(** C4 on that page: the mapping is empty although the block is there. *)
Lemma empty_mapping_iff_no_enabled_button_witness :
  fst (parse_hdd_block_prices cents join card_linked
         (started Z (serving detail_url all_disabled))) = Ret []
  /\ (@nil (string * Z) = [] <->
      (forall b, In b [hdd "128" true "$469.10"] -> btn_disabled b = true)).
Proof.
  split; [reflexivity|].
  apply (@empty_mapping_iff_no_enabled_button Z cents join card_linked
           "/test-sites/e-commerce/static/product/31"
           (started Z (serving detail_url all_disabled))
           (snd (parse_hdd_block_prices cents join card_linked
                   (started Z (serving detail_url all_disabled))))).
  - reflexivity.
  - reflexivity.
  - vm_compute. reflexivity.
Defined.

(** C4, refuted as worded. *)
Lemma empty_iff_no_variant_block_fails :
  ~ empty_iff_no_variant_block cents join.
Proof.
  intros H.
  destruct (H card_linked "/test-sites/e-commerce/static/product/31"
              (started Z (serving detail_url all_disabled)) 0 blank_page
              eq_refl eq_refl eq_refl) as [H1 _].
  specialize (H1 eq_refl). vm_compute in H1. discriminate.
Qed.

(** Without the variant block the call does not return a mapping:
    [find_element] raises. *)
Example no_variant_block_raises :
  fst (parse_hdd_block_prices cents join card_linked
         (started Z (serving detail_url (detail_page (Some closable) None))))
  = Exc NoSuchElementException.
Proof. reflexivity. Qed.

(** C6 on that page: two entries, under the values of the enabled buttons. *)
Lemma keys_are_enabled_button_values_witness :
  let w := started Z (serving detail_url
                      (detail_page (Some closable) (Some three_buttons))) in
  fst (parse_hdd_block_prices cents join card_linked w)
  = Ret [("256", 48910%Z); ("512", 50910%Z)]
  /\ forall prices w',
       parse_hdd_block_prices cents join card_linked w = (Ret prices, w') ->
       keys prices = ["256"; "512"]
       /\ List.length prices = 2
       /\ ~ In "128" (keys prices).
Proof.
  intros w. split; [reflexivity|].
  intros prices w' Hrun.
  destruct (@keys_are_enabled_button_values Z cents join card_linked
              "/test-sites/e-commerce/static/product/31" w w' prices
              three_buttons eq_refl Hrun eq_refl)
    as (Hk & Hlen & Hdis).
  - vm_compute. repeat constructor; simpl; intuition discriminate.
  - split; [exact Hk|]. split; [exact Hlen|].
    apply (Hdis (hdd "128" true "$469.10")); [now left|reflexivity].
Defined.

(** C6, refuted as worded: two enabled buttons with the same value share
    one entry. *)
Lemma one_entry_per_enabled_button_fails :
  ~ one_entry_per_enabled_button cents join.
Proof.
  intros H.
  set (bs := [hdd "128" true "$469.10"; hdd "256" false "$489.10";
              hdd "256" false "$509.10"]).
  set (w := started Z (serving detail_url (detail_page (Some closable) (Some bs)))).
  destruct (H card_linked "/test-sites/e-commerce/static/product/31" w
              (snd (parse_hdd_block_prices cents join card_linked w))
              [("256", 50910%Z)] bs eq_refl) as (Hlen & _).
  - vm_compute. reflexivity.
  - reflexivity.
  - vm_compute in Hlen. discriminate.
Qed.

(** C7 on a card without link. *)
Lemma no_link_empty_mapping_witness :
  parse_hdd_block_prices cents join card_a (initial Z (fun _ => blank_page))
  = (Ret [], initial Z (fun _ => blank_page))
  /\ additional_info (read_card cents join 0%Z card_a) = [("hdd_prices", [])].
Proof.
  destruct (@no_link_empty_mapping Z cents join card_a
              (initial Z (fun _ => blank_page)) eq_refl) as (H1 & _ & H3).
  split; [exact H1|]. apply H3. reflexivity.
Defined.

(** C8 on a card without review count, and on one with it. *)
Lemma num_of_reviews_default_witness :
  num_of_reviews (read_card cents join 0%Z card_b) = 0%Z
  /\ num_of_reviews (read_card cents join 0%Z card_a) = 14%Z.
Proof.
  pose proof (@num_of_reviews_default Z cents join card_b
                (initial Z (fun _ => blank_page))
                (initial Z (fun _ => blank_page)) []
                {| href := None; title_attr := Some "Lenovo V110" |}
                "Lenovo V110" "15.6 inch, 4GB, 128GB SSD" "$321.94" "5"
                32194%Z 5%Z
                eq_refl eq_refl eq_refl eq_refl eq_refl eq_refl eq_refl eq_refl)
    as Hb.
  pose proof (@num_of_reviews_default Z cents join card_a
                (initial Z (fun _ => blank_page))
                (initial Z (fun _ => blank_page)) []
                {| href := None; title_attr := Some "Asus VivoBook" |}
                "Asus VivoBook" "15.6 inch, 4GB, 500GB" "$295.99" "3"
                29599%Z 3%Z
                eq_refl eq_refl eq_refl eq_refl eq_refl eq_refl eq_refl eq_refl)
    as Ha.
  cbv zeta in Hb, Ha. unfold read_card. rewrite Hb, Ha. split; reflexivity.
Defined.

(** C5 on a detail page whose banner closes at the dismissal that
    follows the load, with another element lying over the buttons: the
    click on the first enabled button is intercepted, the dismisser called
    by the handler waits for a banner that is no longer there and raises
    [TimeoutException], which ends the call; the button is not clicked a
    second time. *)
Lemma intercepted_click_then_dismissal_witness :
  let w0 := started Z (serving detail_url
                       (overlaid (Some closable) (Some three_buttons))) in
  let b := hdd "256" false "$489.10" in
  let w := snd (locate_buttons join (Some 0)
                  "/test-sites/e-commerce/static/product/31" w0) in
  let w1 := emit (EvClick (ElSwatch b)) w in
  exists w2,
    snd (close_cookie_banner w1) = w2
    /\ log w2 = [EvWait 10 presence_of_element_located]
                ++ EvClick (ElSwatch b) :: log w
    /\ close_cookie_banner w1 = (Exc TimeoutException, w2)
    /\ parse_hdd_block_prices cents join card_linked w0
       = (Exc TimeoutException, w2).
Proof.
  intros w0 b w w1.
  apply (@intercepted_click_then_dismissal Z cents join card_linked w0 w w1
           0 (overlaid None (Some three_buttons))
           [hdd "128" true "$469.10"] [hdd "512" false "$509.10"]
           b []).
  - exists "/test-sites/e-commerce/static/product/31", w.
    split; [reflexivity|]. split; [reflexivity|]. split.
    + vm_compute. reflexivity.
    + vm_compute. reflexivity.
  - vm_compute. reflexivity.
  - reflexivity.
  - vm_compute. reflexivity.
Defined.

(** The same run seen from the outside: the call raises
    [TimeoutException], and its log (most recent event first) holds one
    click on the button. *)
Example covering_element_ends_the_product :
  let run := parse_hdd_block_prices cents join card_linked
               (started Z (serving detail_url
                             (overlaid (Some closable) (Some three_buttons)))) in
  fst run = Exc TimeoutException
  /\ log (snd run)
     = [EvWait 10 presence_of_element_located;
        EvClick (ElSwatch (hdd "256" false "$489.10"));
        EvScriptClick ElBannerButton;
        EvWait 10 element_to_be_clickable;
        EvWait 10 presence_of_element_located;
        EvGet detail_url].
Proof. split; vm_compute; reflexivity. Qed.

(** Under the banner that cannot be closed the call raises; under the one
    that closes on the second script click the retry goes through and both
    enabled buttons are priced. *)
Example second_interception_raises :
  fst (parse_hdd_block_prices cents join card_linked
         (started Z (serving detail_url
                     (detail_page (Some stuck) (Some three_buttons)))))
  = Exc ElementClickInterceptedException.
Proof. reflexivity. Qed.

Example retry_goes_through :
  fst (parse_hdd_block_prices cents join card_linked
         (started Z (serving detail_url
                     (detail_page (Some stubborn) (Some three_buttons)))))
  = Ret [("256", 48910%Z); ("512", 50910%Z)].
Proof. reflexivity. Qed.

(** The first pass of [scrape_page] on the two-card listing of C1, seen
    from the outside: three rows under the header. *)
Example rereading_reaches_the_file :
  exists rows,
    dict_get "home.csv"
      (files (snd (get_all_products cents join 2
                     (started Z (serving
                        "https://webscraper.io/test-sites/e-commerce/more/"
                        listing)))))
    = Some (header :: rows)
    /\ List.length rows = 3.
Proof. eexists. split; [vm_compute; reflexivity|reflexivity]. Qed.

(** ** The further properties at concrete pages *)

(** X1 on a pager of three pages. *)
Lemma get_num_pages_last_but_one_witness :
  get_num_pages paged (initial Z (fun _ => blank_page))
  = (Ret 3%Z, initial Z (fun _ => blank_page)).
Proof.
  apply (proj2 (@get_num_pages_last_but_one Z paged
                  ["<"; "1"; "2"; "3"; ">"]
                  (initial Z (fun _ => blank_page)) eq_refl)
           ["<"; "1"; "2"] "3" ">" eq_refl).
Defined.

(** X5 on a page whose banner carries no button. *)
Lemma close_cookie_banner_returns_iff_witness :
  let w := loaded 0 detail_url
             (started Z (serving detail_url (detail_page (Some stuck) None))) in
  fst (close_cookie_banner w) = Ret tt.
Proof.
  intros w.
  apply (proj1 (@close_cookie_banner_returns_iff Z w 0
                  (detail_page (Some stuck) None) eq_refl eq_refl)).
  exists stuck. split; [reflexivity|now left].
Defined.

(** X6 on a page whose banner closes at once. *)
Lemma close_cookie_banner_twice_witness :
  let p := detail_page (Some closable) None in
  let w := loaded 0 detail_url (started Z (serving detail_url p)) in
  exists w1,
    close_cookie_banner w = (Ret tt, w1)
    /\ showing w1 0 (set_banner None p)
    /\ stdout w1 = Text "Cookie banner closed successfully." :: stdout w
    /\ fst (close_cookie_banner w1) = Exc TimeoutException.
Proof.
  intros p w.
  apply (@close_cookie_banner_twice Z w 0 p closable);
    reflexivity.
Defined.

(** X7 on the page with three buttons. *)
Lemma parse_hdd_block_prices_reads_shown_prices_witness :
  let w := started Z (serving detail_url
                        (detail_page (Some closable) (Some three_buttons))) in
  exists w',
    parse_hdd_block_prices cents join card_linked w
    = (Ret [("256", 48910%Z); ("512", 50910%Z)], w')
    /\ log w' = [EvClick (ElSwatch (hdd "512" false "$509.10"));
                 EvClick (ElSwatch (hdd "256" false "$489.10"))]
                ++ [EvScriptClick ElBannerButton;
                    EvWait 10 element_to_be_clickable;
                    EvWait 10 presence_of_element_located;
                    EvGet detail_url]
                ++ log w
    /\ forall b, btn_disabled b = true ->
                 ~ In (EvClick (ElSwatch b))
                      [EvClick (ElSwatch (hdd "512" false "$509.10"));
                       EvClick (ElSwatch (hdd "256" false "$489.10"))].
Proof.
  intros w.
  apply (@parse_hdd_block_prices_reads_shown_prices Z cents join
           (shown_price cents 0%Z) card_linked
           "/test-sites/e-commerce/static/product/31" w
           0 blank_page closable three_buttons);
    try reflexivity.
  intros b Hb. vm_compute in Hb. destruct Hb as [<-|[<-|[]]]; reflexivity.
Defined.

(** X8 on a page whose second button shows no price. *)
Lemma parse_hdd_block_prices_unreadable_price_witness :
  fst (parse_hdd_block_prices cents join card_linked
         (started Z (serving detail_url
                       (detail_page (Some closable) (Some odd_buttons)))))
  = Exc ValueError.
Proof.
  apply (@parse_hdd_block_prices_unreadable_price Z cents join
           (shown_price cents 0%Z) card_linked
           "/test-sites/e-commerce/static/product/31"
           (started Z (serving detail_url
                         (detail_page (Some closable) (Some odd_buttons))))
           0 blank_page closable
           [hdd "128" true "$469.10"] [hdd "512" false "$509.10"]
           (hdd "256" false "ask"));
    try reflexivity.
  intros b [].
Defined.


(** X9 on the same card and the page whose banner closes at once. *)
Lemma parse_hdd_block_prices_stays_on_detail_page_witness :
  let page := detail_page (Some closable) (Some three_buttons) in
  let w := started Z (shop linked_listing page) in
  exists r p',
    _driver (snd (parse_hdd_block_prices cents join card_linked w)) = Some r
    /\ showing (snd (parse_hdd_block_prices cents join card_linked w)) r p'
    /\ same_content
         (web w (join BASE_URL "/test-sites/e-commerce/static/product/31")) p'
    /\ web (snd (parse_hdd_block_prices cents join card_linked w)) = web w.
Proof.
  intros page w.
  apply (@parse_hdd_block_prices_stays_on_detail_page Z cents join
           card_linked "/test-sites/e-commerce/static/product/31" w
           (snd (parse_hdd_block_prices cents join card_linked w))
           [("256", 48910%Z); ("512", 50910%Z)]).
  - reflexivity.
  - vm_compute. reflexivity.
Defined.

(** X10 on a listing with a reveal control whose only card carries a
    link: one record, the control is never clicked. *)
Lemma scrape_page_stops_on_detail_page_witness :
  let page := detail_page (Some closable) (Some three_buttons) in
  let w := started Z (shop linked_listing page) in
  exists ps w2,
    scrape_page cents join 1 listing_url "home" w = (Ret ps, w2)
    /\ List.length ps = 1.
Proof.
  intros page w.
  set (w1 := emit (EvSleep 2)
               (turn 0 (web w listing_url) (emit (EvGet listing_url) w))).
  set (run := get_single_page_products cents join (web w listing_url) w1).
  exists (match fst run with Ret ps => ps | _ => [] end), (snd run).
  apply (@scrape_page_stops_on_detail_page Z cents join 0 listing_url "home"
           "/test-sites/e-commerce/static/product/31" w (snd run) 0
           blank_page (match fst run with Ret ps => ps | _ => [] end)).
  - reflexivity.
  - reflexivity.
  - reflexivity.
  - reflexivity.
  - vm_compute. reflexivity.
Defined.

(** X11 on the listing whose second card cannot be read. *)
Lemma scrape_page_first_unreadable_card_witness :
  let w := started Z (serving listing_url half_broken) in
  fst (scrape_page cents join 1 listing_url "home" w) = Exc TypeError.
Proof.
  intros w.
  set (w1 := emit (EvSleep 2)
               (turn 0 (web w listing_url) (emit (EvGet listing_url) w))).
  rewrite (@scrape_page_first_unreadable_card Z cents join 0 listing_url
             "home" w w1 w1 0 blank_page [card_a] [card_b] card_broken
             [read_card cents join 0%Z card_a] TypeError);
    reflexivity.
Defined.

(** X12 on the listing under a banner. *)
Lemma scrape_page_does_not_dismiss_witness :
  let w := started Z (serving listing_url covered_listing) in
  exists w',
    scrape_page cents join 1 listing_url "home" w
    = (Exc ElementClickInterceptedException, w')
    /\ log w' = [EvClick ElBtnMore; EvSleep 2; EvGet listing_url] ++ log w.
Proof.
  intros w.
  apply (@scrape_page_does_not_dismiss Z cents join
           (read_card cents join 0%Z) 0 listing_url "home" w 0 blank_page).
  - reflexivity.
  - reflexivity.
  - reflexivity.
  - discriminate.
  - intros c Hc w'. vm_compute in Hc. destruct Hc as [<-|[]]. reflexivity.
Defined.

(** X13 on the listing with one card. *)
Lemma get_single_page_products_in_page_order_witness :
  Forall2 (extracted cents) (thumbnails listing)
    [read_card cents join 0%Z card_a].
Proof.
  apply (@get_single_page_products_in_page_order Z cents join listing
           (initial Z (fun _ => blank_page))
           (initial Z (fun _ => blank_page))).
  reflexivity.
Defined.

(** X14 on a card that is well formed and on one that is not. *)
Lemma parse_single_product_needs_well_formed_card_witness :
  (exists p,
      parse_single_product cents join card_a (initial Z (fun _ => blank_page))
      = (Ret p, initial Z (fun _ => blank_page))
      /\ additional_info p = [("hdd_prices", [])])
  /\ (exists e,
         parse_single_product cents join card_broken
           (initial Z (fun _ => blank_page))
         = (Exc e, initial Z (fun _ => blank_page))
         /\ In e [IndexError; ValueError; TypeError; KeyError; AttributeError]).
Proof.
  split.
  - apply (@parse_single_product_needs_well_formed_card Z cents join card_a
             (initial Z (fun _ => blank_page))
             (initial Z (fun _ => blank_page)) [] eq_refl).
  - apply (@parse_single_product_needs_well_formed_card Z cents join
             card_broken (initial Z (fun _ => blank_page))
             (initial Z (fun _ => blank_page)) [] eq_refl).
Defined.

(** X15 on a site of blank pages. *)
Lemma get_all_products_writes_every_section_witness :
  let w := started Z (fun _ => blank_page) in
  exists rows,
    dict_get "touch.csv" (files (snd (get_all_products cents join 1 w)))
    = Some (header :: rows).
Proof.
  intros w.
  refine (@get_all_products_writes_every_section Z cents join 1 w
            (snd (get_all_products cents join 1 w)) _ "touch" _).
  - vm_compute. reflexivity.
  - simpl. tauto.
Defined.
